(** * SlackUserChannelCompare: a shallow embedding of
      [slack_user_channel_compare.py] and the properties of its specification.

    The script talks to three Slack Web API methods through a global
    [WebClient], prints to standard output and sleeps.  The embedding keeps
    that shape: the client is an interface (a type class over the state of
    the remote side), every Python function is a computation in a small
    state-and-exception monad over its mutable local variables and the
    outside world, and the world records, in order, every request sent,
    every line printed and every sleep. *)

From Stdlib Require Import ZArith Lia Ascii String.
From stdpp Require Import gmap strings list sorting pretty.

Open Scope string_scope.

#[local] Set Warnings "-clear-no-such-hyp".

(** ** Python values used by the script *)

(** The newline character of the f-strings that start or end with [\n]. *)
Definition NL : string := String (ascii_of_nat 10) "".

(** A name that holds a [str] or [None] ([user_id_1], [cursor], ...). *)
Abbreviation str_or_none := (option string).

(** Truth value of a [str]-or-[None]: [None] and the empty string are false. *)
Definition truthy (v : str_or_none) : bool :=
  match v with
  | Some s => negb (String.eqb s "")
  | None => false
  end.

(** [f"{v}"] for a [str]-or-[None]. *)
Definition fmt (v : str_or_none) : string :=
  match v with
  | Some s => s
  | None => "None"
  end.

(** [v in l] for a list of strings [l]: [None] equals no string. *)
Definition py_in (v : str_or_none) (l : list string) : bool :=
  match v with
  | Some s => bool_decide (s ∈ l)
  | None => false
  end.

(** [sorted(names)] on strings: ascending in the order of code points, which
    on UTF-8 encoded strings is the byte-wise lexicographic order
    [String.leb].  A list has one sorted permutation only
    ([sorted_unique] below), so the sorting algorithm does not show. *)
Definition sorted (names : list string) : list string :=
  merge_sort (λ a b : string, String.leb a b) names.

(** A [dict] from strings to strings.  Python dictionaries iterate in
    insertion order, and the script iterates over [all_channels.keys()], so
    the dictionary is an association list with one entry per key. *)
Abbreviation dict := (list (string * string)).

(** [d[k] = v]: the value of a present key is replaced in place, a new key
    goes to the end. *)
Fixpoint dict_setitem (k v : string) (d : dict) : dict :=
  match d with
  | [] => [(k, v)]
  | (k', v') :: d' =>
      if String.eqb k' k then (k', v) :: d' else (k', v') :: dict_setitem k v d'
  end.

(** [d[k]], [None] standing for [KeyError]. *)
Fixpoint dict_getitem (k : string) (d : dict) : option string :=
  match d with
  | [] => None
  | (k', v') :: d' => if String.eqb k' k then Some v' else dict_getitem k d'
  end.

(** [d.keys()], in iteration order. *)
Definition dict_keys (d : dict) : list string := d.*1.

(** ** Python's [int] on a string

    [int(s)] in base ten on a text of ASCII characters, as CPython 3.11
    reads it: blanks (the space and the bytes 9 to 13) are dropped on both
    sides, then come an optional sign and digits, with single underscores
    allowed between digits; a text of more than 4300 digits is refused.
    Every other text is a [ValueError], [None] here.  (On a text with other
    characters CPython also reads non-ASCII digits and blanks; such a text
    is [None] here, and what is proved of [None] is stated for ASCII texts
    only.) *)

Definition is_space (a : ascii) : bool :=
  let n := nat_of_ascii a in
  (Nat.eqb n 32) || ((9 <=? n)%nat && (n <=? 13)%nat).

Definition digit_of (a : ascii) : option Z :=
  let n := Z.of_nat (nat_of_ascii a) in
  if ((48 <=? n) && (n <=? 57))%Z then Some (n - 48)%Z else None.

Fixpoint lstrip (l : list ascii) : list ascii :=
  match l with
  | a :: l' => if is_space a then lstrip l' else l
  | [] => []
  end.

Definition strip (l : list ascii) : list ascii :=
  rev (lstrip (rev (lstrip l))).

Fixpoint digits (acc : Z) (after_digit : bool) (l : list ascii) : option Z :=
  match l with
  | [] => if after_digit then Some acc else None
  | a :: l' =>
      match digit_of a with
      | Some d => digits (10 * acc + d) true l'
      | None =>
          if Ascii.eqb a "_" && after_digit then digits acc false l' else None
      end
  end.

(** The limit of [int] on the number of digits of a text
    ([sys.int_info.default_max_str_digits]). *)
Definition max_str_digits : Z := 4300.

(** The number of digits of a text. *)
Definition count_digits (l : list ascii) : Z :=
  fold_left (λ n a, match digit_of a with Some _ => (n + 1)%Z | None => n end) l 0%Z.

Definition py_int (s : string) : option Z :=
  match strip (list_ascii_of_string s) with
  | a :: l =>
      if (max_str_digits <? count_digits (a :: l))%Z then None
      else if Ascii.eqb a "-" then Z.opp <$> digits 0 false l
      else if Ascii.eqb a "+" then digits 0 false l
      else digits 0 false (a :: l)
  | [] => None
  end.

(** ** The Slack Web API as the script sees it *)

(** [response["user"]] of [users.lookupByEmail]. *)
Record User := { user_id : string; real_name : string }.

(** One element of [response["channels"]] of [conversations.list]. *)
Record Channel := {
  channel_id : string;
  channel_name : string;
  is_private : bool;
  is_archived : bool
}.

(** A page of [conversations.list]: [response["channels"]] and
    [response["response_metadata"].get("next_cursor", None)], which is
    [None] when the key is absent or null. *)
Record Page := { channels : list Channel; next_cursor : str_or_none }.

(** [e.response] of a [SlackApiError]: [e.response['error']] and
    [e.response.headers]. *)
Record ErrorResponse := { error : string; headers : gmap string string }.

(** The exceptions that can travel through the script: the API error the
    script catches, the [KeyError] of a dictionary lookup, the [ValueError]
    of [int] and of [time.sleep], the [OverflowError] of [time.sleep], and
    any other failure of the client (transport), which the script never
    catches. *)
Inductive exn :=
| SlackApiError (response : ErrorResponse)
| KeyError
| ValueError
| OverflowError
| OtherError (what : string).

(** What a call of a client method does: return a response or raise. *)
Inductive reply (A : Type) :=
| Returns (a : A)
| Raises (e : exn).
Arguments Returns {A} a.
Arguments Raises {A} e.

(** The three methods of [slack_sdk.WebClient] the script calls, over the
    state [S] of the remote side (and of the client): the state lets the
    same request be answered differently from one call to the next. *)
Class WebClient (S : Type) := {
  users_lookupByEmail : string → S → reply User * S;
  conversations_list : string → Z → str_or_none → S → reply Page * S;
  conversations_members : string → S → reply (list string) * S
}.

(** ** The world and the monad *)

Inductive Request :=
| UsersLookupByEmail (email : string)
| ConversationsList (types : string) (limit : Z) (cursor : str_or_none)
| ConversationsMembers (channel : string).

(** What the script does to the outside, in the order it does it. *)
Inductive Event :=
| Call (rq : Request)
| Print (text : string)
| Sleep (seconds : Z).

Record World (S : Type) := { server : S; trace : list Event }.
Arguments server {S} w.
Arguments trace {S} w.
Arguments Build_World {S} server trace.

(** How a computation ends.  [OutOfFuel] is not a Python outcome: it marks
    a [while True] loop cut after the number of rounds the model was given. *)
Inductive outcome (A : Type) :=
| Ok (a : A)
| Raised (e : exn)
| OutOfFuel.
Arguments Ok {A} a.
Arguments Raised {A} e.
Arguments OutOfFuel {A}.

(** A computation over the local variables [L] of the running function and
    the world.  The state is returned also when an exception is raised:
    what was assigned and printed before the [raise] stays. *)
Definition M (S L A : Type) : Type := L * World S → outcome A * (L * World S).

#[global] Instance M_ret {S L} : MRet (M S L) := λ A a st, (Ok a, st).

#[global] Instance M_bind {S L} : MBind (M S L) := λ A B k m st,
  match m st with
  | (Ok a, st') => k a st'
  | (Raised e, st') => (Raised e, st')
  | (OutOfFuel, st') => (OutOfFuel, st')
  end.

Definition raise {S L A} (e : exn) : M S L A := λ st, (Raised e, st).

(** The local variables, read and assigned. *)
Definition locals {S L} : M S L L := λ st, (Ok st.1, st).
Definition assign {S L} (f : L → L) : M S L unit := λ st, (Ok tt, (f st.1, st.2)).

Definition emit {S L} (e : Event) : M S L unit :=
  λ st, (Ok tt, (st.1, Build_World (server st.2) (trace st.2 ++ [e]))).

(** [print(text)]. *)
Definition print {S L} (text : string) : M S L unit := emit (Print text).

(** The longest sleep, in seconds: [time.sleep] counts nanoseconds in a
    signed 64-bit integer. *)
Definition max_sleep : Z := 9223372036.

(** [time.sleep(seconds)] on an integer: a length beyond [max_sleep] in
    either sign is an [OverflowError] ("timestamp too large to convert to
    C _PyTime_t"), a negative length a [ValueError] ("sleep length must be
    non-negative"). *)
Definition time_sleep {S L} (seconds : Z) : M S L unit :=
  if (seconds <? - max_sleep)%Z || (max_sleep <? seconds)%Z then raise OverflowError
  else if (seconds <? 0)%Z then raise ValueError
  else emit (Sleep seconds).

(** A call of a client method: the request is recorded, the remote side
    moves on and the reply is returned or raised. *)
Definition api {S L A} (rq : Request) (method : S → reply A * S) : M S L A :=
  λ st,
    let '(r, s') := method (server st.2) in
    let st' := (st.1, Build_World s' (trace st.2 ++ [Call rq])) in
    match r with
    | Returns a => (Ok a, st')
    | Raises e => (Raised e, st')
    end.

(** [try: body  except SlackApiError as e: handler]. *)
Definition try_except {S L A} (body : M S L A) (handler : ErrorResponse → M S L A)
  : M S L A :=
  λ st,
    match body st with
    | (Raised (SlackApiError response), st') => handler response st'
    | r => r
    end.

(** A call of a Python function: it runs on its own local variables and
    leaves the caller's untouched. *)
Definition call {S L L' A} (init : L') (f : M S L' A) : M S L A :=
  λ st, let '(r, st') := f (init, st.2) in (r, (st.1, st'.2)).

(** [for x in xs: body]. *)
Fixpoint for_each {S L X} (xs : list X) (body : X → M S L unit) : M S L unit :=
  match xs with
  | [] => mret tt
  | x :: xs' => body x;; for_each xs' body
  end.

(** How a round of a [while True] loop ends: it reaches the end of the body,
    or a [break]. *)
Inductive flow := Continue | Break.

(** [while True: body], cut after [fuel] rounds. *)
Fixpoint while_true {S L} (fuel : nat) (body : M S L flow) : M S L unit :=
  match fuel with
  | O => λ st, (OutOfFuel, st)
  | Datatypes.S fuel' =>
      f ← body;
      match f with
      | Break => mret tt
      | Continue => while_true fuel' body
      end
  end.

(** [int(e.response.headers.get('Retry-After', 1))] (line 101): the
    default [1] is an integer already, a header is a string that [int]
    reads; [None] stands for the [ValueError] of [int]. *)
Definition retry_after_header (e : ErrorResponse) : option Z :=
  match headers e !! "Retry-After" with
  | None => Some 1%Z
  | Some s => py_int s
  end.

Definition int_or_raise {S L} (n : option Z) : M S L Z :=
  match n with
  | Some n => mret n
  | None => raise ValueError
  end.

(** ** The script *)

Section Script.
Context {S : Type} {client : WebClient S}.

(** [get_user_id_by_email(email)] (lines 12-27). *)
Definition get_user_id_by_email (email : string)
  : M S unit (str_or_none * str_or_none) :=
  print ("Looking up user ID for email: " ++ email);;
  try_except
    (response ← api (UsersLookupByEmail email) (users_lookupByEmail email);
     let user_id := user_id response in
     let user_name := real_name response in
     print ("User ID for " ++ email ++ ": " ++ user_id);;
     mret (Some user_id, Some user_name))
    (λ e,
       print ("Error fetching user ID for email " ++ email ++ ": " ++ error e);;
       mret (None, None)).

(** The local variables of [get_channel_ids] (lines 35-38). *)
Record ChannelLocals := {
  all_channels : dict;
  public_channel_count : nat;
  private_channel_count : nat;
  cursor : str_or_none
}.

(** The body of [for channel in channels] (lines 48-53). *)
Definition store_channel (channel : Channel) : M S ChannelLocals unit :=
  if negb (is_archived channel) then
    assign (λ l, {| all_channels :=
                      dict_setitem (channel_id channel) (channel_name channel)
                                   (all_channels l);
                    public_channel_count := public_channel_count l;
                    private_channel_count := private_channel_count l;
                    cursor := cursor l |});;
    if is_private channel then
      assign (λ l, {| all_channels := all_channels l;
                      public_channel_count := public_channel_count l;
                      private_channel_count := private_channel_count l + 1;
                      cursor := cursor l |})
    else
      assign (λ l, {| all_channels := all_channels l;
                      public_channel_count := public_channel_count l + 1;
                      private_channel_count := private_channel_count l;
                      cursor := cursor l |})
  else mret tt.

(** One round of the pagination loop (lines 43-58). *)
Definition fetch_page : M S ChannelLocals flow :=
  l ← locals;
  response ← api (ConversationsList "public_channel,private_channel" 100 (cursor l))
                 (conversations_list "public_channel,private_channel" 100 (cursor l));
  for_each (channels response) store_channel;;
  assign (λ l, {| all_channels := all_channels l;
                  public_channel_count := public_channel_count l;
                  private_channel_count := private_channel_count l;
                  cursor := next_cursor response |});;
  l ← locals;
  if negb (truthy (cursor l)) then mret Break else mret Continue.

(** [get_channel_ids()] (lines 29-67), on its local variables. *)
Definition get_channel_ids_body (fuel : nat) : M S ChannelLocals dict :=
  print "Fetching all non-archived channel IDs (including private channels)...";;
  try_except
    (while_true fuel fetch_page)
    (λ e, print ("Error fetching channels: " ++ error e));;
  l ← locals;
  print ("Total channels found: " ++ pretty (length (all_channels l)));;
  print ("Public channels: " ++ pretty (public_channel_count l));;
  print ("Private channels: " ++ pretty (private_channel_count l));;
  mret (all_channels l).

Definition get_channel_ids {L} (fuel : nat) : M S L dict :=
  call {| all_channels := []; public_channel_count := 0;
          private_channel_count := 0; cursor := None |}
       (get_channel_ids_body fuel).

(** The local variables of [get_users_channel_ids] (lines 78-79). *)
Record MemberLocals := {
  user_1_channels : gset string;
  user_2_channels : gset string
}.

(** One round of the retry loop of a channel (lines 85-107). *)
Definition query_members (user_id_1 user_id_2 : str_or_none) (channel_id : string)
  : M S MemberLocals flow :=
  try_except
    (members ← api (ConversationsMembers channel_id)
                   (conversations_members channel_id);
     (if py_in user_id_1 members then
        assign (λ l, {| user_1_channels := {[channel_id]} ∪ user_1_channels l;
                        user_2_channels := user_2_channels l |})
      else mret tt);;
     (if py_in user_id_2 members then
        assign (λ l, {| user_1_channels := user_1_channels l;
                        user_2_channels := {[channel_id]} ∪ user_2_channels l |})
      else mret tt);;
     time_sleep 1;;
     mret Break)
    (λ e,
       if String.eqb (error e) "ratelimited" then
         retry_after ← int_or_raise (retry_after_header e);
         print ("Rate-limited. Retrying after " ++ pretty retry_after
                ++ " seconds...");;
         time_sleep retry_after;;
         mret Continue
       else
         print ("Error fetching channel members for channel " ++ channel_id
                ++ ": " ++ error e);;
         mret Break).

(** The body of [for channel_id in ...]: the retry loop of one channel
    (lines 84-107). *)
Definition check_membership (fuel : nat) (user_id_1 user_id_2 : str_or_none)
    (channel_id : string) : M S MemberLocals unit :=
  while_true fuel (query_members user_id_1 user_id_2 channel_id).

(** [get_users_channel_ids(user_id_1, user_id_2, all_channel_ids)]
    (lines 69-112), on its local variables.  The progress bar of [tqdm]
    goes to standard error and is left out. *)
Definition get_users_channel_ids_body (fuel : nat)
    (user_id_1 user_id_2 : str_or_none) (all_channel_ids : list string)
  : M S MemberLocals (gset string * gset string) :=
  print "Fetching channel membership for both users...";;
  try_except
    (for_each all_channel_ids (check_membership fuel user_id_1 user_id_2))
    (λ e, print ("Error fetching channel memberships: " ++ error e));;
  l ← locals;
  mret (user_1_channels l, user_2_channels l).

Definition get_users_channel_ids {L} (fuel : nat)
    (user_id_1 user_id_2 : str_or_none) (all_channel_ids : list string)
  : M S L (gset string * gset string) :=
  call {| user_1_channels := ∅; user_2_channels := ∅ |}
       (get_users_channel_ids_body fuel user_id_1 user_id_2 all_channel_ids).

(** [[all_channels[channel_id] for channel_id in ids]]. *)
Fixpoint channel_names {L} (all_channels : dict) (ids : list string)
  : M S L (list string) :=
  match ids with
  | [] => mret []
  | channel_id :: ids' =>
      match dict_getitem channel_id all_channels with
      | Some name => names ← channel_names all_channels ids'; mret (name :: names)
      | None => raise KeyError
      end
  end.

(** The two differences of [compare_user_channels] (lines 144 and 146). *)
Definition only_in_user_1 (channels_user_1 channels_user_2 : gset string)
  : gset string := channels_user_1 ∖ channels_user_2.
Definition only_in_user_2 (channels_user_1 channels_user_2 : gset string)
  : gset string := channels_user_2 ∖ channels_user_1.

(** One of the two [if only_in_user: ... else: ...] blocks of the report
    (lines 149-154 and 156-161): they differ in the user only. *)
Definition report_exclusive {L} (user_name : str_or_none) (all_channels : dict)
    (only_in_user : gset string) : M S L unit :=
  if negb (bool_decide (only_in_user = ∅)) then
    print (NL ++ "Channels only in " ++ fmt user_name ++ ":");;
    names ← channel_names all_channels (elements only_in_user);
    for_each (sorted names) (λ channel_name, print ("- " ++ channel_name))
  else
    print (NL ++ "No channels are exclusive to " ++ fmt user_name ++ ".").

(** The end of [compare_user_channels], from the counts on
    (lines 137-161). *)
Definition report {L} (user_name_1 user_name_2 : str_or_none) (all_channels : dict)
    (channels_user_1 channels_user_2 : gset string) : M S L unit :=
  print (fmt user_name_1 ++ " is part of " ++ pretty (size channels_user_1)
         ++ " channels.");;
  print (fmt user_name_2 ++ " is part of " ++ pretty (size channels_user_2)
         ++ " channels.");;
  print (NL ++ "Comparing channel memberships...");;
  report_exclusive user_name_1 all_channels
                   (only_in_user_1 channels_user_1 channels_user_2);;
  report_exclusive user_name_2 all_channels
                   (only_in_user_2 channels_user_1 channels_user_2).

(** [compare_user_channels(email_1, email_2)] (lines 114-161). *)
Definition compare_user_channels (fuel : nat) (email_1 email_2 : string)
  : M S unit unit :=
  print ("Comparing channels for " ++ email_1 ++ " and " ++ email_2 ++ "..." ++ NL);;
  '(user_id_1, user_name_1) ← get_user_id_by_email email_1;
  '(user_id_2, user_name_2) ← get_user_id_by_email email_2;
  if negb (truthy user_id_1) || negb (truthy user_id_2) then
    print "Unable to retrieve user IDs for comparison."
  else
    all_channels ← get_channel_ids fuel;
    '(channels_user_1, channels_user_2) ←
      get_users_channel_ids fuel user_id_1 user_id_2 (dict_keys all_channels);
    report user_name_1 user_name_2 all_channels channels_user_1 channels_user_2.

End Script.

(** ** A scripted client

    A test double of the client: each method answers its calls, whatever
    their arguments, with the next reply of its own queue, and fails like a
    broken connection once the queue is empty. *)

Record Script := {
  lookup_replies : list (reply User);
  list_replies : list (reply Page);
  members_replies : list (reply (list string))
}.

Definition next_reply {A} (queue : list (reply A)) : reply A * list (reply A) :=
  match queue with
  | r :: queue' => (r, queue')
  | [] => (Raises (OtherError "connection lost"), [])
  end.

#[global] Instance scripted : WebClient Script := {
  users_lookupByEmail _ s :=
    let '(r, q) := next_reply (lookup_replies s) in
    (r, {| lookup_replies := q; list_replies := list_replies s;
           members_replies := members_replies s |});
  conversations_list _ _ _ s :=
    let '(r, q) := next_reply (list_replies s) in
    (r, {| lookup_replies := lookup_replies s; list_replies := q;
           members_replies := members_replies s |});
  conversations_members _ s :=
    let '(r, q) := next_reply (members_replies s) in
    (r, {| lookup_replies := lookup_replies s; list_replies := list_replies s;
           members_replies := q |})
}.

(** The start of a run against a script: nothing happened yet. *)
Definition start (s : Script) : unit * World Script := (tt, Build_World s []).

(** An API error with the given code and no header. *)
Definition api_error (code : string) : ErrorResponse :=
  {| error := code; headers := ∅ |}.

(** A rate-limit error that suggests to wait [hint]. *)
Definition rate_limited (hint : string) : ErrorResponse :=
  {| error := "ratelimited"; headers := {["Retry-After" := hint]} |}.

Definition public_channel (id name : string) : Channel :=
  {| channel_id := id; channel_name := name; is_private := false; is_archived := false |}.

(** ** What the loops compute, as plain functions *)

(** The entry of the mapping a channel gives. *)
Definition entry (c : Channel) : string * string := (channel_id c, channel_name c).

(** The channels of a listing that are not archived. *)
Definition active (chs : list Channel) : list Channel :=
  filter (λ c, is_archived c = false) chs.

(** The archived ones. *)
Definition archived (chs : list Channel) : list Channel :=
  filter (λ c, is_archived c = true) chs.

(** The mapping [d] after the assignments [d[id] = name] of the channels
    of [chs] that are not archived, in order. *)
Definition mapping_from (d : dict) (chs : list Channel) : dict :=
  fold_left (λ d c, dict_setitem (channel_id c) (channel_name c) d) (active chs) d.

(** The number of channels of [chs] that are not archived and have the
    given [is_private]. *)
Definition count_active (private : bool) (chs : list Channel) : nat :=
  length (filter (λ c, is_private c = private) (active chs)).

(** All channels of a sequence of pages. *)
Definition listed (pages : list Page) : list Channel := concat (channels <$> pages).

(** The local variables of [get_channel_ids] after [store_channel]. *)
Definition stored (l : ChannelLocals) (c : Channel) : ChannelLocals :=
  if is_archived c then l
  else {| all_channels := dict_setitem (channel_id c) (channel_name c) (all_channels l);
          public_channel_count :=
            if is_private c then public_channel_count l else public_channel_count l + 1;
          private_channel_count :=
            if is_private c then private_channel_count l + 1 else private_channel_count l;
          cursor := cursor l |}.

(** The local variables after a whole page. *)
Definition turned (l : ChannelLocals) (p : Page) : ChannelLocals :=
  let l' := fold_left stored (channels p) l in
  {| all_channels := all_channels l';
     public_channel_count := public_channel_count l';
     private_channel_count := private_channel_count l';
     cursor := next_cursor p |}.

(** The requests of the pagination loop for the pages it is given, from the
    cursor [cur] on. *)
Fixpoint page_calls (cur : str_or_none) (pages : list Page) : list Event :=
  match pages with
  | [] => []
  | p :: pages' =>
      Call (ConversationsList "public_channel,private_channel" 100 cur)
        :: page_calls (next_cursor p) pages'
  end.

(** The cursor after the pages. *)
Definition cursor_after (cur : str_or_none) (pages : list Page) : str_or_none :=
  fold_left (λ _ p, next_cursor p) pages cur.

(** What follows the page requests when the listing ends with an API
    error: the request that fails and the log line of the handler. *)
Definition failed_call (cur : str_or_none) (fin : option ErrorResponse) : list Event :=
  match fin with
  | None => []
  | Some e =>
      [Call (ConversationsList "public_channel,private_channel" 100 cur);
       Print ("Error fetching channels: " ++ error e)]
  end.

(** The three lines [get_channel_ids] prints before it returns. *)
Definition totals (d : dict) (public private : nat) : list Event :=
  [Print ("Total channels found: " ++ pretty (length d));
   Print ("Public channels: " ++ pretty public);
   Print ("Private channels: " ++ pretty private)].

(** The [conversations.list] and [conversations.members] requests of a
    trace, recognised and counted. *)
Definition is_list_request (ev : Event) : bool :=
  match ev with
  | Call (ConversationsList _ _ _) => true
  | _ => false
  end.

Definition is_members_request (ev : Event) : bool :=
  match ev with
  | Call (ConversationsMembers _) => true
  | _ => false
  end.

Definition list_requests (tr : list Event) : nat :=
  length (filter (λ ev, is_list_request ev = true) tr).

Definition members_requests (tr : list Event) : nat :=
  length (filter (λ ev, is_members_request ev = true) tr).

(** ** How the remote side answers *)

Section Remote.
Context {S : Type} {client : WebClient S}.

(** [listing s cur pages fin s']: asked for pages from cursor [cur] on, the
    remote side in state [s] serves [pages], each with the cursor the
    loop then follows, and ends in state [s'].  With [fin = None] the
    last page carries a cursor that is false for Python ([None] or the
    empty string); with [fin = Some e] every page carries a cursor and
    the request after the last page raises the API error [e]. *)
Inductive listing : S → str_or_none → list Page → option ErrorResponse → S → Prop :=
| listing_last s cur p s' :
    conversations_list "public_channel,private_channel" 100 cur s = (Returns p, s') →
    truthy (next_cursor p) = false →
    listing s cur [p] None s'
| listing_error s cur e s' :
    conversations_list "public_channel,private_channel" 100 cur s
      = (Raises (SlackApiError e), s') →
    listing s cur [] (Some e) s'
| listing_next s cur p s1 pages fin s' :
    conversations_list "public_channel,private_channel" 100 cur s = (Returns p, s1) →
    truthy (next_cursor p) = true →
    listing s1 (next_cursor p) pages fin s' →
    listing s cur (p :: pages) fin s'.


End Remote.



(** The sets of [get_users_channel_ids] after a channel with the given
    members was tested. *)
Definition tested (user_id_1 user_id_2 : str_or_none) (channel_id : string)
    (members : list string) (l : MemberLocals) : MemberLocals :=
  {| user_1_channels :=
       if py_in user_id_1 members then {[channel_id]} ∪ user_1_channels l
       else user_1_channels l;
     user_2_channels :=
       if py_in user_id_2 members then {[channel_id]} ∪ user_2_channels l
       else user_2_channels l |}.

(** The events of one call of [get_user_id_by_email] that was answered
    with [r]. *)
Definition lookup_events (email : string) (r : User + ErrorResponse) : list Event :=
  [Print ("Looking up user ID for email: " ++ email);
   Call (UsersLookupByEmail email);
   match r with
   | inl u => Print ("User ID for " ++ email ++ ": " ++ user_id u)
   | inr e => Print ("Error fetching user ID for email " ++ email ++ ": " ++ error e)
   end].

(** The reply of the client that [r] stands for. *)
Definition reply_of (r : User + ErrorResponse) : reply User :=
  match r with
  | inl u => Returns u
  | inr e => Raises (SlackApiError e)
  end.

(** The rounds of the pagination loop on a listing: one for each page, and
    one for the request that fails. *)
Definition rounds (pages : list Page) (fin : option ErrorResponse) : nat :=
  (length pages + match fin with Some _ => 1 | None => 0 end)%nat.




(** The lengths of the sleeps of a trace, in order. *)
Definition sleeps (tr : list Event) : list Z :=
  omap (λ ev, match ev with Sleep n => Some n | _ => None end) tr.

(** [[all_channels[channel_id] for channel_id in ids]] when no lookup
    fails. *)
Definition names_of (all_channels : dict) (ids : list string) : list string :=
  omap (λ channel_id, dict_getitem channel_id all_channels) ids.

(** What one block of the report prints. *)
Definition exclusive_lines (user_name : str_or_none) (names : list string)
  : list Event :=
  match names with
  | [] => [Print (NL ++ "No channels are exclusive to " ++ fmt user_name ++ ".")]
  | _ => Print (NL ++ "Channels only in " ++ fmt user_name ++ ":")
           :: ((λ channel_name, Print ("- " ++ channel_name)) <$> names)
  end.

(** Both sets of [l'] hold only what [l] holds and the ids of [X]. *)
Definition grown_within (X : gset string) (l l' : MemberLocals) : Prop :=
  user_1_channels l' ⊆ X ∪ user_1_channels l
  ∧ user_2_channels l' ⊆ X ∪ user_2_channels l.


(** ** Test data *)

(** A script that serves the given pages and nothing else. *)
Definition serving (pages : list Page) : Script :=
  {| lookup_replies := []; list_replies := Returns <$> pages; members_replies := [] |}.

(** A script that answers membership requests only. *)
Definition answering (replies : list (reply (list string))) : Script :=
  {| lookup_replies := []; list_replies := []; members_replies := replies |}.

(** [n] public channels [prefix0], [prefix1], ... named after their ids. *)
Definition numbered (prefix : string) (n : nat) : list Channel :=
  (λ i, public_channel (prefix ++ pretty i) ("chan-" ++ prefix ++ pretty i)) <$> seq 0 n.

Definition archived_channel (id name : string) : Channel :=
  {| channel_id := id; channel_name := name; is_private := false; is_archived := true |}.

Definition private_channel (id name : string) : Channel :=
  {| channel_id := id; channel_name := name; is_private := true; is_archived := false |}.

(** Three pages of 100, 100 and 50 channels; the last one ends the listing
    with an empty cursor, as Slack does. *)
Definition three_pages : list Page :=
  [ {| channels := numbered "A" 100; next_cursor := Some "page-2" |};
    {| channels := numbered "B" 100; next_cursor := Some "page-3" |};
    {| channels := numbered "C" 50; next_cursor := Some "" |} ].

(** A sequence of pages "in which only the last page carries an absent or
    null [next_cursor]": every page before the last carries a string. *)
Fixpoint only_last_null (pages : list Page) : bool :=
  match pages with
  | [] => false
  | [p] => bool_decide (next_cursor p = None)
  | p :: pages' => bool_decide (next_cursor p ≠ None) && only_last_null pages'
  end.

(** Two pages, the first with an empty string for cursor. *)
Definition early_end_pages : list Page :=
  [ {| channels := [public_channel "C1" "general"]; next_cursor := Some "" |};
    {| channels := [public_channel "C2" "random"]; next_cursor := None |} ].

(** One page of five active and two archived channels. *)
Definition seven_channels : list Page :=
  [ {| channels := [public_channel "C1" "general"; archived_channel "C2" "old-news";
                    private_channel "C3" "board"; public_channel "C4" "random";
                    archived_channel "C5" "2019-offsite"; public_channel "C6" "help";
                    private_channel "C7" "hiring"];
       next_cursor := None |} ].

(** A page, then an API error. *)
Definition broken_listing : Script :=
  {| lookup_replies := [];
     list_replies := [Returns {| channels := [public_channel "C1" "general";
                                              private_channel "C2" "board"];
                                 next_cursor := Some "page-2" |};
                      Raises (SlackApiError (api_error "internal_error"))];
     members_replies := [] |}.



(** The second lookup fails. *)
Definition unknown_second_user : Script :=
  {| lookup_replies := [Returns {| user_id := "U1"; real_name := "Ann" |};
                        Raises (SlackApiError (api_error "users_not_found"))];
     list_replies := []; members_replies := [] |}.

(** Membership replies for three channels: both users, user 1, an error. *)
Definition three_channels_scanned : Script :=
  answering [Returns ["U1"; "U2"]; Returns ["U1"];
             Raises (SlackApiError (api_error "fetch_members_failed"))].


(** A whole run: two users, two pages of channels with an archived one, a
    rate-limited membership request and a failing one. *)
Definition sample_run : Script :=
  {| lookup_replies := [Returns {| user_id := "U1"; real_name := "Ann" |};
                        Returns {| user_id := "U2"; real_name := "Bob" |}];
     list_replies :=
       [Returns {| channels := [public_channel "C1" "Zeta"; public_channel "C2" "Alpha";
                                archived_channel "C9" "old"];
                   next_cursor := Some "page-2" |};
        Returns {| channels := [public_channel "C3" "mid"; private_channel "C4" "board"];
                   next_cursor := Some "" |}];
     members_replies :=
       [Returns ["U1"]; Raises (SlackApiError (rate_limited "3"));
        Returns ["U1"; "U2"]; Returns ["U1"];
        Raises (SlackApiError (api_error "channel_not_found"))] |}.



(** Ann and Bob and four channels: Ann is in the last one only, Bob in all
    of them. *)
Definition ann_within_bob : Script :=
  {| lookup_replies := [Returns {| user_id := "U1"; real_name := "Ann" |};
                        Returns {| user_id := "U2"; real_name := "Bob" |}];
     list_replies :=
       [Returns {| channels := [public_channel "C1" "Zeta"; public_channel "C2" "Alpha";
                                public_channel "C3" "mid"; public_channel "C4" "help"];
                   next_cursor := None |}];
     members_replies := [Returns ["U2"]; Returns ["U2"]; Returns ["U2"];
                         Returns ["U1"; "U2"]] |}.

(** ** Further vocabulary for traces and remote sides *)

(** The [users.lookupByEmail] requests of a trace, recognised and counted. *)
Definition is_lookup_request (ev : Event) : bool :=
  match ev with
  | Call (UsersLookupByEmail _) => true
  | _ => false
  end.

Definition lookup_requests (tr : list Event) : nat :=
  length (filter (λ ev, is_lookup_request ev = true) tr).

(** A computation from which no [SlackApiError] escapes, whatever the
    state it starts in. *)
Definition no_api_error {S L A} (m : M S L A) : Prop :=
  ∀ st e, (m st).1 ≠ Raised (SlackApiError e).

(** Whether a computation ended with a [SlackApiError] raised. *)
Definition raised_api_error {A} (r : outcome A) : bool :=
  match r with
  | Raised (SlackApiError _) => true
  | _ => false
  end.

(** A string of ASCII characters only, the strings on which [py_int] is
    Python's [int]. *)
Definition ascii_only (s : string) : Prop :=
  Forall (λ a, (nat_of_ascii a < 128)%nat) (list_ascii_of_string s).

(** An exception that [except SlackApiError] does not catch. *)
Definition uncaught (x : exn) : Prop := ∀ e, x ≠ SlackApiError e.

Section RemoteRuns.
Context {S : Type} {client : WebClient S}.

(** [pages_then s cur pages r s']: asked for pages from cursor [cur] on, the
    remote side in state [s] serves [pages], each with a cursor to follow,
    and then gives the reply [r] to the next request, which leaves it in
    state [s']. *)
Inductive pages_then : S → str_or_none → list Page → reply Page → S → Prop :=
| pages_then_reply s cur r s' :
    conversations_list "public_channel,private_channel" 100 cur s = (r, s') →
    pages_then s cur [] r s'
| pages_then_page s cur p s1 pages r s' :
    conversations_list "public_channel,private_channel" 100 cur s = (Returns p, s1) →
    truthy (next_cursor p) = true →
    pages_then s1 (next_cursor p) pages r s' →
    pages_then s cur (p :: pages) r s'.

(** [scanned s ids ms s']: asked for the members of the channels [ids], one
    after the other, the remote side in state [s] returns the member lists
    [ms], each at the first request, and ends in state [s']. *)
Inductive scanned : S → list string → list (list string) → S → Prop :=
| scanned_nil s : scanned s [] [] s
| scanned_cons s channel members s1 ids ms s' :
    conversations_members channel s = (Returns members, s1) →
    scanned s1 ids ms s' →
    scanned s (channel :: ids) (members :: ms) s'.


(** A set of states and cursors in which the listing never ends: each
    request returns a page with a cursor to follow. *)
Definition always_more_pages (P : S → str_or_none → Prop) : Prop :=
  ∀ s cur, P s cur →
    ∃ p s', conversations_list "public_channel,private_channel" 100 cur s
            = (Returns p, s')
            ∧ truthy (next_cursor p) = true ∧ P s' (next_cursor p).

End RemoteRuns.

(** The ids among [ids] whose member list, at the same position of [ms],
    holds [user_id]. *)
Definition members_in (user_id : str_or_none) (ids : list string)
    (ms : list (list string)) : gset string :=
  list_to_set ((filter (λ cm, py_in user_id cm.2 = true) (zip ids ms)).*1).

(** The events of [get_channel_ids] on a listing. *)
Definition enumeration_events (pages : list Page) (fin : option ErrorResponse)
  : list Event :=
  ([Print "Fetching all non-archived channel IDs (including private channels)..."]
     ++ page_calls None pages
     ++ failed_call (cursor_after None pages) fin
     ++ totals (mapping_from [] (listed pages))
               (count_active false (listed pages))
               (count_active true (listed pages)))%list.

(** The events of [get_users_channel_ids] when every channel is answered at
    the first request. *)
Definition scan_events (ids : list string) : list Event :=
  Print "Fetching channel membership for both users..."
    :: (ids ≫= λ channel, [Call (ConversationsMembers channel); Sleep 1]).

(** The events of the report when every lookup of a name succeeds. *)
Definition report_events (user_name_1 user_name_2 : str_or_none) (d : dict)
    (set1 set2 : gset string) : list Event :=
  ([Print (fmt user_name_1 ++ " is part of " ++ pretty (size set1) ++ " channels.");
    Print (fmt user_name_2 ++ " is part of " ++ pretty (size set2) ++ " channels.");
    Print (NL ++ "Comparing channel memberships...")]
     ++ exclusive_lines user_name_1
          (sorted (names_of d (elements (only_in_user_1 set1 set2))))
     ++ exclusive_lines user_name_2
          (sorted (names_of d (elements (only_in_user_2 set1 set2)))))%list.

(** The last channel of [chs] that is not archived and has the id [id]. *)
Definition last_active (id : string) (chs : list Channel) : option Channel :=
  last (filter (λ c, channel_id c = id) (active chs)).

(** A remote side that never lets go: every listing request returns one
    more page with a cursor, every membership request is rate limited. *)
#[global] Instance relentless : WebClient unit := {
  users_lookupByEmail _ s := (Raises (OtherError "connection refused"), s);
  conversations_list _ _ _ s :=
    (Returns {| channels := [public_channel "C1" "general"];
                next_cursor := Some "more" |}, s);
  conversations_members _ s := (Raises (SlackApiError (rate_limited "2")), s)
}.

(** A script with the two users Ann and Bob and the given listing and
    membership replies. *)
Definition ann_and_bob (pages : list (reply Page)) (members : list (reply (list string)))
  : Script :=
  {| lookup_replies := [Returns {| user_id := "U1"; real_name := "Ann" |};
                        Returns {| user_id := "U2"; real_name := "Bob" |}];
     list_replies := pages;
     members_replies := members |}.

(** A lookup that succeeds with an empty id, then Bob. *)
Definition ghost_then_bob : Script :=
  {| lookup_replies := [Returns {| user_id := ""; real_name := "Ghost" |};
                        Returns {| user_id := "U2"; real_name := "Bob" |}];
     list_replies := []; members_replies := [] |}.

(** A page whose cursor is to be followed. *)
Definition first_page : Page :=
  {| channels := [public_channel "C1" "general"; private_channel "C2" "board"];
     next_cursor := Some "page-2" |}.

(** A page that lists the id [C1] twice, the second time as a private
    channel with another name, and an archived channel. *)
Definition page_with_repeated_id : Page :=
  {| channels := [public_channel "C1" "general"; private_channel "C1" "general-2";
                  archived_channel "C2" "old-news"];
     next_cursor := None |}.

(** Two pages of two channels each, the last one with an empty cursor. *)
Definition four_channels : list Page :=
  [ {| channels := [public_channel "C1" "Zeta"; public_channel "C2" "Alpha"];
       next_cursor := Some "page-2" |};
    {| channels := [private_channel "C3" "mid"; public_channel "C4" "help"];
       next_cursor := Some "" |} ].
(** * Properties *)

(** Unfolds the operations of the monad on a given state. *)
Ltac run :=
  cbv [mbind M_bind mret M_ret print emit assign locals raise api try_except call
       time_sleep int_or_raise];
  cbn [fst snd server trace].


(** Computes on a state without unfolding strings, numbers and sets. *)
Ltac reduce := cbn -[String.append pretty union singleton Z.ltb String.eqb].

(** ** Dictionaries *)

Lemma dict_keys_setitem (k v : string) (d : dict) (x : string) :
  x ∈ dict_keys (dict_setitem k v d) ↔ x = k ∨ x ∈ dict_keys d.
Proof.
  unfold dict_keys. induction d as [|[k' v'] d IH]; cbn.
  - set_solver.
  - destruct (String.eqb_spec k' k) as [->|Hne]; cbn; set_solver.
Qed.

Lemma dict_setitem_fresh (k v : string) (d : dict) :
  k ∉ dict_keys d → dict_setitem k v d = (d ++ [(k, v)])%list.
Proof.
  unfold dict_keys. induction d as [|[k' v'] d IH]; cbn; [done|].
  intros Hk. destruct (String.eqb_spec k' k) as [->|Hne]; [set_solver|].
  rewrite IH; [done|set_solver].
Qed.

Lemma dict_setitem_entries (k v : string) (d : dict) (e : string * string) :
  e ∈ dict_setitem k v d → e = (k, v) ∨ e ∈ d.
Proof.
  induction d as [|[k' v'] d IH]; cbn.
  - set_solver.
  - destruct (String.eqb_spec k' k) as [->|Hne]; set_solver.
Qed.

Lemma dict_setitem_NoDup (k v : string) (d : dict) :
  NoDup (dict_keys d) → NoDup (dict_keys (dict_setitem k v d)).
Proof.
  induction d as [|[k' v'] d IH]; cbn.
  - intros _. apply NoDup_singleton.
  - rewrite NoDup_cons. intros [Hk' Hd].
    destruct (String.eqb_spec k' k) as [->|Hne]; cbn; rewrite NoDup_cons.
    + done.
    + split; [|by apply IH].
      intros [-> | ?]%dict_keys_setitem; done.
Qed.

Lemma dict_getitem_is_Some (k : string) (d : dict) :
  is_Some (dict_getitem k d) ↔ k ∈ dict_keys d.
Proof.
  unfold dict_keys. induction d as [|[k' v'] d IH]; cbn.
  - split; [by intros [? ?]|by intros ?%elem_of_nil].
  - destruct (String.eqb_spec k' k) as [->|Hne].
    + split; [set_solver|eauto].
    + rewrite IH. set_solver.
Qed.

(** ** The mapping of a listing *)

Lemma mapping_from_app d chs1 chs2 :
  mapping_from d (chs1 ++ chs2)%list = mapping_from (mapping_from d chs1) chs2.
Proof. unfold mapping_from, active. by rewrite filter_app, fold_left_app. Qed.

Lemma count_active_app b chs1 chs2 :
  count_active b (chs1 ++ chs2)%list = (count_active b chs1 + count_active b chs2)%nat.
Proof. unfold count_active, active. by rewrite !filter_app, length_app. Qed.

Lemma mapping_from_cons d c chs :
  mapping_from d (c :: chs)
  = mapping_from (if is_archived c then d
                  else dict_setitem (channel_id c) (channel_name c) d) chs.
Proof.
  unfold mapping_from, active. rewrite filter_cons.
  destruct (is_archived c); by case_decide.
Qed.

Lemma count_active_cons b c chs :
  count_active b (c :: chs)
  = ((if is_archived c then 0 else if bool_decide (is_private c = b) then 1 else 0)
     + count_active b chs)%nat.
Proof.
  unfold count_active, active. rewrite filter_cons.
  destruct (is_archived c); case_decide; try done.
  rewrite filter_cons. case_bool_decide; case_decide; done.
Qed.

(** A channel that is not archived is counted as public or as private. *)
Lemma count_active_total chs :
  (count_active false chs + count_active true chs)%nat = length (active chs).
Proof.
  induction chs as [|c chs IH]; [done|].
  rewrite !count_active_cons. unfold active in *. rewrite filter_cons.
  destruct (is_archived c), (is_private c); case_decide; try done;
    repeat case_bool_decide; try done; cbn; lia.
Qed.

(** The keys of the mapping stay without repetition. *)
Lemma mapping_from_NoDup d chs :
  NoDup (dict_keys d) → NoDup (dict_keys (mapping_from d chs)).
Proof.
  revert d. induction chs as [|c chs IH]; intros d Hd; [done|].
  rewrite mapping_from_cons. apply IH.
  destruct (is_archived c); [done|by apply dict_setitem_NoDup].
Qed.

(** Every entry of the mapping was there before or is the entry of a
    listed channel that is not archived. *)
Lemma mapping_from_entries d chs e :
  e ∈ mapping_from d chs →
  e ∈ d ∨ ∃ c, c ∈ chs ∧ is_archived c = false ∧ entry c = e.
Proof.
  revert d. induction chs as [|c chs IH]; intros d; [by left|].
  rewrite mapping_from_cons. intros Hin.
  apply IH in Hin as [He | (c' & Hc' & Ha & <-)].
  - destruct (is_archived c) eqn:Ha; [by left|].
    apply dict_setitem_entries in He as [->|He]; [|by left].
    right. exists c. split; [left|done].
  - right. exists c'. split; [by right|done].
Qed.

(** Channels with pairwise distinct ids, none of them in the mapping yet,
    are appended in order, one entry each. *)
Lemma mapping_from_distinct d chs :
  NoDup (channel_id <$> active chs) →
  (∀ c, c ∈ active chs → channel_id c ∉ dict_keys d) →
  mapping_from d chs = (d ++ (entry <$> active chs))%list.
Proof.
  unfold mapping_from. generalize (active chs) as cs. clear chs.
  intros cs. revert d. induction cs as [|c cs IH]; intros d Hnd Hd; cbn.
  - by rewrite app_nil_r.
  - cbn in Hnd. apply NoDup_cons in Hnd as [Hc Hnd].
    rewrite dict_setitem_fresh by (apply Hd; left).
    rewrite IH; [by rewrite <-app_assoc|done|].
    intros c' Hc'. unfold dict_keys. rewrite fmap_app, elem_of_app. cbn.
    intros [? | Heq%list_elem_of_singleton].
    + by apply (Hd c'); [right|].
    + apply Hc. rewrite <-Heq. by apply list_elem_of_fmap_2.
Qed.

Lemma active_distinct chs :
  NoDup (channel_id <$> chs) → NoDup (channel_id <$> active chs).
Proof.
  unfold active. induction chs as [|c chs IH]; [done|].
  rewrite fmap_cons, NoDup_cons. intros [Hc Hnd]. rewrite filter_cons.
  case_decide; [|by apply IH].
  rewrite fmap_cons. apply NoDup_cons. split; [|by apply IH].
  intros (c' & Heq & Hin%list_elem_of_filter)%list_elem_of_fmap.
  apply Hc. rewrite Heq. apply list_elem_of_fmap_2. tauto.
Qed.

(** With pairwise distinct ids the mapping has one entry for each channel
    that is not archived. *)
Lemma mapping_from_length chs :
  NoDup (channel_id <$> chs) →
  length (mapping_from [] chs) = length (active chs).
Proof.
  intros Hnd. rewrite mapping_from_distinct.
  - cbn. by rewrite length_fmap.
  - by apply active_distinct.
  - intros c _. apply not_elem_of_nil.
Qed.

Lemma active_archived_length chs :
  (length (active chs) + length (archived chs))%nat = length chs.
Proof.
  unfold active, archived. induction chs as [|c chs IH]; [done|].
  rewrite !filter_cons. destruct (is_archived c); repeat case_decide; try done;
    cbn; lia.
Qed.

Lemma active_all chs :
  Forall (λ c, is_archived c = false) chs → active chs = chs.
Proof.
  unfold active. induction 1 as [|c chs Hc _ IH]; [done|].
  rewrite filter_cons. case_decide; [by rewrite IH|done].
Qed.

Section Enumerator.
Context {S : Type} {client : WebClient S}.

Lemma for_each_store_channel (chs : list Channel) (l : ChannelLocals) (w : World S) :
  for_each chs store_channel (l, w) = (Ok tt, (fold_left stored chs l, w)).
Proof.
  revert l. induction chs as [|c chs IH]; intros l; [done|].
  cbn [for_each fold_left]. unfold mbind, M_bind.
  assert (store_channel c (l, w) = (Ok tt, (stored l c, w))) as ->.
  { unfold store_channel, stored. destruct (is_archived c), (is_private c); done. }
  apply IH.
Qed.

Lemma fetch_page_returns (l : ChannelLocals) (s s' : S) (tr : list Event) (p : Page) :
  conversations_list "public_channel,private_channel" 100 (cursor l) s = (Returns p, s') →
  fetch_page (l, Build_World s tr)
  = (Ok (if truthy (next_cursor p) then Continue else Break),
     (turned l p,
      Build_World s' (tr ++ [Call (ConversationsList "public_channel,private_channel" 100 (cursor l))]))).
Proof.
  intros Hc. unfold fetch_page. run. rewrite Hc.
  rewrite for_each_store_channel. cbn [cursor]. unfold turned.
  by destruct (truthy (next_cursor p)).
Qed.

Lemma fetch_page_raises (l : ChannelLocals) (s s' : S) (tr : list Event) (e : exn) :
  conversations_list "public_channel,private_channel" 100 (cursor l) s = (Raises e, s') →
  fetch_page (l, Build_World s tr)
  = (Raised e,
     (l, Build_World s' (tr ++ [Call (ConversationsList "public_channel,private_channel" 100 (cursor l))]))).
Proof. intros Hc. unfold fetch_page. run. by rewrite Hc. Qed.

Lemma while_fetch_page s cur pages fin s' :
  listing s cur pages fin s' →
  ∀ fuel l tr,
    (rounds pages fin ≤ fuel)%nat → cursor l = cur →
    while_true fuel fetch_page (l, Build_World s tr)
    = (match fin with None => Ok tt | Some e => Raised (SlackApiError e) end,
       (fold_left turned pages l,
        Build_World s' (tr ++ page_calls cur pages ++
           match fin with None => [] | Some _ => [Call (ConversationsList "public_channel,private_channel" 100 (cursor_after cur pages))] end))).
Proof.
  induction 1 as [s cur p s' Hc Hf|s cur e s' Hc|s cur p s1 pages fin s' Hc Ht _ IH];
    intros fuel l tr Hfuel <-; unfold rounds in Hfuel; cbn [length] in Hfuel.
  - destruct fuel as [|fuel]; [lia|]. cbn [while_true]. unfold mbind at 1, M_bind at 1.
    by rewrite (fetch_page_returns _ _ _ _ _ Hc), Hf.
  - destruct fuel as [|fuel]; [lia|]. cbn [while_true]. unfold mbind at 1, M_bind at 1.
    by rewrite (fetch_page_raises _ _ _ _ _ Hc).
  - destruct fuel as [|fuel]; [lia|]. cbn [while_true]. unfold mbind at 1, M_bind at 1.
    rewrite (fetch_page_returns _ _ _ _ _ Hc), Ht.
    rewrite IH; [|unfold rounds; lia|done].
    cbn [fold_left page_calls cursor_after]. by rewrite <-app_assoc.
Qed.


Lemma stored_all l chs :
  all_channels (fold_left stored chs l) = mapping_from (all_channels l) chs
  ∧ public_channel_count (fold_left stored chs l)
    = (public_channel_count l + count_active false chs)%nat
  ∧ private_channel_count (fold_left stored chs l)
    = (private_channel_count l + count_active true chs)%nat
  ∧ cursor (fold_left stored chs l) = cursor l.
Proof.
  revert l. induction chs as [|c chs IH]; intros l.
  - cbn. unfold count_active. cbn. by rewrite !Nat.add_0_r.
  - cbn [fold_left]. destruct (IH (stored l c)) as (-> & -> & -> & ->).
    rewrite mapping_from_cons, !count_active_cons. unfold stored.
    destruct (is_archived c), (is_private c); cbn;
      repeat case_bool_decide; try done; repeat split; lia.
Qed.

Lemma turned_all l pages :
  all_channels (fold_left turned pages l) = mapping_from (all_channels l) (listed pages)
  ∧ public_channel_count (fold_left turned pages l)
    = (public_channel_count l + count_active false (listed pages))%nat
  ∧ private_channel_count (fold_left turned pages l)
    = (private_channel_count l + count_active true (listed pages))%nat.
Proof.
  revert l. induction pages as [|p pages IH]; intros l.
  - cbn. unfold count_active. cbn. by rewrite !Nat.add_0_r.
  - cbn [fold_left]. destruct (IH (turned l p)) as (-> & -> & ->).
    unfold listed. cbn [fmap list_fmap concat]. 
    rewrite mapping_from_app, !count_active_app. unfold turned. cbn.
    destruct (stored_all l (channels p)) as (-> & -> & -> & _).
    repeat split; lia.
Qed.

Lemma get_channel_ids_listing {L} s pages fin s' fuel (l : L) tr :
  listing s None pages fin s' →
  (rounds pages fin ≤ fuel)%nat →
  get_channel_ids fuel (l, Build_World s tr)
  = (Ok (mapping_from [] (listed pages)),
     (l, Build_World s'
           (tr ++ [Print "Fetching all non-archived channel IDs (including private channels)..."]
               ++ page_calls None pages
               ++ failed_call (cursor_after None pages) fin
               ++ totals (mapping_from [] (listed pages))
                         (count_active false (listed pages))
                         (count_active true (listed pages))))).
Proof.
  intros Hl Hfuel. unfold get_channel_ids, get_channel_ids_body. run.
  erewrite while_fetch_page; [|done..].
  destruct (turned_all {| all_channels := []; public_channel_count := 0;
          private_channel_count := 0; cursor := None |} pages) as (Ha & Hp & Hq).
  cbn in Ha, Hp, Hq.
  destruct fin as [e|]; cbn [fst snd server trace]; rewrite Ha, Hp, Hq;
    unfold failed_call, totals; rewrite <-?app_assoc; cbn [app]; reflexivity.
Qed.


Lemma list_requests_app (tr1 tr2 : list Event) :
  list_requests (tr1 ++ tr2) = (list_requests tr1 + list_requests tr2)%nat.
Proof. unfold list_requests. by rewrite filter_app, length_app. Qed.

Lemma list_requests_cons (ev : Event) (tr : list Event) :
  list_requests (ev :: tr)
  = ((if is_list_request ev then 1 else 0) + list_requests tr)%nat.
Proof.
  unfold list_requests. rewrite filter_cons.
  destruct (is_list_request ev); case_decide; done.
Qed.

Lemma list_requests_page_calls cur pages :
  list_requests (page_calls cur pages) = length pages.
Proof.
  revert cur. induction pages as [|p pages IH]; intros cur; [done|].
  cbn [page_calls]. by rewrite list_requests_cons, IH.
Qed.

Lemma length_listed pages :
  length (listed pages) = sum_list (length <$> (channels <$> pages)).
Proof.
  unfold listed. induction pages as [|p pages IH]; [done|].
  cbn. by rewrite length_app, IH.
Qed.

(** C3 (as amended): when the remote side serves a finite sequence of
    pages in which every page but the last carries a non-empty
    [next_cursor] and the last carries none ([None] or the empty string),
    the pagination loop of [get_channel_ids] ends, given at least as many
    rounds as there are pages, after requesting exactly those pages, and
    the enumerator returns the mapping collected from them, without a
    repeated key.  In particular three pages of 100, 100 and 50 channels,
    none archived and with pairwise distinct ids, give a mapping of
    exactly 250 entries. *)
Theorem pagination_consumes_every_page {L} (s s' : S) (pages : list Page)
    (fuel : nat) (l : L) (tr : list Event) :
  listing s None pages None s' →
  (length pages ≤ fuel)%nat →
  let d := mapping_from [] (listed pages) in
  let requests := page_calls None pages in
  get_channel_ids fuel (l, Build_World s tr)
  = (Ok d,
     (l, Build_World s'
           (tr ++ [Print "Fetching all non-archived channel IDs (including private channels)..."]
               ++ requests
               ++ totals d (count_active false (listed pages))
                           (count_active true (listed pages)))))
  ∧ list_requests requests = length pages
  ∧ NoDup (dict_keys d)
  ∧ (length <$> (channels <$> pages) = [100; 100; 50]%nat →
     Forall (λ c, is_archived c = false) (listed pages) →
     NoDup (channel_id <$> listed pages) →
     length d = 250%nat).
Proof.
  intros Hl Hfuel d requests. repeat split.
  - rewrite (get_channel_ids_listing _ _ _ _ _ _ _ Hl).
    + done.
    + unfold rounds. lia.
  - apply list_requests_page_calls.
  - apply mapping_from_NoDup, NoDup_nil_2.
  - intros Hlen Hact Hnd. unfold d.
    rewrite mapping_from_length, active_all by done.
    by rewrite length_listed, Hlen.
Qed.

(** C4: whatever the remote side lists, every entry of the mapping
    [get_channel_ids] returns is the id and name of a listed channel that
    is not archived; when the listed ids are pairwise distinct, the id of
    no archived channel is a key of the mapping, and a listing of 5
    active and 2 archived channels gives a mapping of exactly 5
    entries. *)
Theorem archived_channels_excluded {L} (s s' : S) (pages : list Page)
    (fin : option ErrorResponse) (fuel : nat) (l : L) (tr : list Event) :
  listing s None pages fin s' →
  (rounds pages fin ≤ fuel)%nat →
  ∃ d st',
    get_channel_ids fuel (l, Build_World s tr) = (Ok d, st')
    ∧ (∀ id name, (id, name) ∈ d →
         ∃ c, c ∈ listed pages ∧ is_archived c = false
              ∧ channel_id c = id ∧ channel_name c = name)
    ∧ (NoDup (channel_id <$> listed pages) →
       (∀ c, c ∈ listed pages → is_archived c = true → channel_id c ∉ dict_keys d)
       ∧ (length (active (listed pages)) = 5%nat →
          length (archived (listed pages)) = 2%nat →
          length d = 5%nat)).
Proof.
  intros Hl Hfuel. eexists _, _. split.
  { by apply get_channel_ids_listing. }
  assert (∀ id name, (id, name) ∈ mapping_from [] (listed pages) →
            ∃ c, c ∈ listed pages ∧ is_archived c = false
                 ∧ channel_id c = id ∧ channel_name c = name) as Hentries.
  { intros id name [Hin | (c & Hc & Ha & Heq)]%mapping_from_entries.
    - by apply elem_of_nil in Hin.
    - exists c. by inversion Heq. }
  split; [done|]. intros Hnd. split.
  - intros c Hc Harch (idname & Hid & Hin)%list_elem_of_fmap.
    destruct idname as [id name]. cbn in Hid. subst id.
    destruct (Hentries _ _ Hin) as (c' & Hc' & Ha' & Hid' & _).
    assert (c' = c) as ->; [|congruence].
    apply list_elem_of_lookup in Hc as [i Hi], Hc' as [j Hj].
    assert (i = j) as ->; [|congruence].
    eapply NoDup_lookup; [exact Hnd|..]; rewrite list_lookup_fmap.
    + by rewrite Hi.
    + rewrite Hj. cbn. by rewrite Hid'.
  - intros Hact _. by rewrite mapping_from_length.
Qed.

(** C7: when the remote side serves some pages, each with a cursor to
    follow, and then answers the next request with an API error, the
    pagination stops at that request, the error is logged, and
    [get_channel_ids] returns normally with the mapping collected from
    the pages served so far. *)
Theorem enumeration_error_returns_partial_mapping {L} (s s' : S)
    (pages : list Page) (e : ErrorResponse) (fuel : nat) (l : L) (tr : list Event) :
  listing s None pages (Some e) s' →
  (length pages < fuel)%nat →
  let d := mapping_from [] (listed pages) in
  let events :=
    ([Print "Fetching all non-archived channel IDs (including private channels)..."]
       ++ page_calls None pages
       ++ [Call (ConversationsList "public_channel,private_channel" 100
                                   (cursor_after None pages));
           Print ("Error fetching channels: " ++ error e)]
       ++ totals d (count_active false (listed pages))
                   (count_active true (listed pages)))%list in
  get_channel_ids fuel (l, Build_World s tr)
  = (Ok d, (l, Build_World s' (tr ++ events)))
  ∧ list_requests events = Datatypes.S (length pages).
Proof.
  intros Hl Hfuel d events. split.
  - rewrite (get_channel_ids_listing _ _ _ _ _ _ _ Hl); [done|].
    unfold rounds. lia.
  - unfold events. rewrite !list_requests_app, list_requests_page_calls.
    unfold totals. rewrite !list_requests_cons. cbn. lia.
Qed.

(** C10: on a listing without error whose channel ids are pairwise
    distinct, the public and the private count that [get_channel_ids]
    prints add up to the number of entries of the mapping it returns,
    which is the total it prints. *)
Theorem public_plus_private_is_total {L} (s s' : S) (pages : list Page)
    (fuel : nat) (l : L) (tr : list Event) :
  listing s None pages None s' →
  NoDup (channel_id <$> listed pages) →
  (length pages ≤ fuel)%nat →
  ∃ d public private before,
    get_channel_ids fuel (l, Build_World s tr)
    = (Ok d, (l, Build_World s' (tr ++ before ++ totals d public private)))
    ∧ public = count_active false (listed pages)
    ∧ private = count_active true (listed pages)
    ∧ (public + private)%nat = length d.
Proof.
  intros Hl Hnd Hfuel.
  exists (mapping_from [] (listed pages)), (count_active false (listed pages)),
    (count_active true (listed pages)),
    (Print "Fetching all non-archived channel IDs (including private channels)..."
       :: page_calls None pages).
  split.
  - rewrite (get_channel_ids_listing _ _ _ _ _ _ _ Hl).
    + reflexivity.
    + unfold rounds. lia.
  - repeat split. by rewrite count_active_total, mapping_from_length.
Qed.
End Enumerator.

Section Membership.
Context {S : Type} {client : WebClient S}.


Lemma members_requests_cons (ev : Event) (tr : list Event) :
  members_requests (ev :: tr)
  = ((if is_members_request ev then 1 else 0) + members_requests tr)%nat.
Proof.
  unfold members_requests. rewrite filter_cons.
  destruct (is_members_request ev); case_decide; done.
Qed.

Lemma members_requests_app (tr1 tr2 : list Event) :
  members_requests (tr1 ++ tr2) = (members_requests tr1 + members_requests tr2)%nat.
Proof. unfold members_requests. by rewrite filter_app, length_app. Qed.


Lemma query_members_returns u1 u2 c (l : MemberLocals) (s s' : S) tr members :
  conversations_members c s = (Returns members, s') →
  query_members u1 u2 c (l, Build_World s tr)
  = (Ok Break,
     (tested u1 u2 c members l,
      Build_World s' (tr ++ [Call (ConversationsMembers c); Sleep 1]))).
Proof.
  intros Hc. unfold query_members, tested. run. rewrite Hc.
  change ((1 <? - max_sleep)%Z || (max_sleep <? 1)%Z) with false.
  change (1 <? 0)%Z with false.
  destruct l, (py_in u1 members), (py_in u2 members); reduce;
    by rewrite <-app_assoc.
Qed.



Lemma query_members_raises u1 u2 c (l : MemberLocals) (s s' : S) tr x :
  conversations_members c s = (Raises x, s') →
  (∀ e, x ≠ SlackApiError e) →
  query_members u1 u2 c (l, Build_World s tr)
  = (Raised x, (l, Build_World s' (tr ++ [Call (ConversationsMembers c)]))).
Proof.
  intros Hc Hx. unfold query_members. run. rewrite Hc.
  destruct x as [e| | | |what]; [by destruct (Hx e)|done..].
Qed.




End Membership.

Section Invariant.
Context {S : Type} {client : WebClient S}.

Lemma grown_within_refl X l : grown_within X l l.
Proof. unfold grown_within. set_solver. Qed.

Lemma grown_within_trans X Y l1 l2 l3 :
  grown_within X l1 l2 → grown_within Y l2 l3 → grown_within (X ∪ Y) l1 l3.
Proof. unfold grown_within. set_solver. Qed.

Lemma grown_within_tested u1 u2 c members l :
  grown_within {[c]} l (tested u1 u2 c members l).
Proof.
  unfold grown_within, tested.
  destruct (py_in u1 members), (py_in u2 members); cbn; set_solver.
Qed.

(** A round of the retry loop leaves the sets as they are or tests the
    channel. *)
Lemma query_members_locals u1 u2 c (st : MemberLocals * World S) :
  (query_members u1 u2 c st).2.1 = st.1
  ∨ ∃ members, (query_members u1 u2 c st).2.1 = tested u1 u2 c members st.1.
Proof.
  destruct st as [l [s tr]].
  destruct (conversations_members c s) as [[members|x] s'] eqn:Hc.
  - right. exists members. by rewrite (query_members_returns _ _ _ _ _ _ _ _ Hc).
  - left. unfold query_members. run. rewrite Hc.
    destruct x as [e| | | |what]; [|done..].
    destruct (error e =? "ratelimited"); [|done].
    destruct (retry_after_header e) as [h|]; [|done].
    destruct ((h <? - max_sleep)%Z || (max_sleep <? h)%Z); [done|].
    by destruct (h <? 0)%Z.
Qed.

Lemma query_members_within u1 u2 c st :
  grown_within {[c]} st.1 (query_members u1 u2 c st).2.1.
Proof.
  destruct (query_members_locals u1 u2 c st) as [->|[members ->]].
  - apply grown_within_refl.
  - apply grown_within_tested.
Qed.

Lemma check_membership_within fuel u1 u2 c st :
  grown_within {[c]} st.1 (check_membership fuel u1 u2 c st).2.1.
Proof.
  unfold check_membership. revert st.
  induction fuel as [|fuel IH]; intros st; [apply grown_within_refl|].
  cbn [while_true]. unfold mbind at 1, M_bind at 1.
  pose proof (query_members_within u1 u2 c st) as Hq.
  destruct (query_members u1 u2 c st) as [[[| ]|x|] st1]; cbn [fst snd] in *.
  - specialize (IH st1). unfold grown_within in *. set_solver.
  - done.
  - done.
  - done.
Qed.

Lemma for_each_check_membership_within fuel u1 u2 ids st :
  grown_within (list_to_set ids) st.1
    (for_each ids (check_membership fuel u1 u2) st).2.1.
Proof.
  revert st. induction ids as [|c ids IH]; intros st; [apply grown_within_refl|].
  cbn [for_each list_to_set]. unfold mbind at 1, M_bind at 1.
  pose proof (check_membership_within fuel u1 u2 c st) as Hc.
  destruct (check_membership fuel u1 u2 c st) as [[[]|x|] st1]; cbn [fst snd] in *.
  - by eapply grown_within_trans.
  - unfold grown_within in *. set_solver.
  - unfold grown_within in *. set_solver.
Qed.

(** The sets [get_users_channel_ids] returns hold ids of its input only. *)
Lemma get_users_channel_ids_within {L} fuel u1 u2 ids (st st' : L * World S) c1 c2 :
  get_users_channel_ids fuel u1 u2 ids st = (Ok (c1, c2), st') →
  c1 ⊆ list_to_set ids ∧ c2 ⊆ list_to_set ids.
Proof.
  unfold get_users_channel_ids, get_users_channel_ids_body. run.
  set (st0 := (_, Build_World _ _)).
  pose proof (for_each_check_membership_within fuel u1 u2 ids st0) as Hw.
  destruct (for_each ids (check_membership fuel u1 u2) st0) as [[[]|x|] st1];
    cbn [fst snd] in *.
  - intros [= <- <- _]. unfold grown_within in Hw. cbn in Hw. set_solver.
  - destruct x as [e| | | |what]; [|done..].
    intros [= <- <- _]. unfold grown_within in Hw. cbn in Hw. set_solver.
  - done.
Qed.
End Invariant.

Section Reporter.
Context {S : Type} {client : WebClient S}.

(** C1: for all sets of channel ids accumulated for the two users, the
    two differences the comparison computes are disjoint, and together
    with the intersection they make up the union of the two sets. *)
Theorem differences_partition_union (set1 set2 : gset string) :
  only_in_user_1 set1 set2 ## only_in_user_2 set1 set2
  ∧ (set1 ∩ set2) ∪ only_in_user_1 set1 set2 ∪ only_in_user_2 set1 set2
    = set1 ∪ set2.
Proof.
  unfold only_in_user_1, only_in_user_2. split.
  - set_solver.
  - apply set_eq. intros x. destruct (decide (x ∈ set1)), (decide (x ∈ set2));
      set_solver.
Qed.

Lemma channel_names_present {L} (d : dict) (ids : list string) (st : L * World S) :
  Forall (λ channel_id, channel_id ∈ dict_keys d) ids →
  channel_names d ids st = (Ok (names_of d ids), st)
  ∧ length (names_of d ids) = length ids.
Proof.
  induction 1 as [|channel_id ids Hid _ [IH Hlen]]; [done|].
  apply dict_getitem_is_Some in Hid as [name Hname].
  unfold names_of in *. cbn [channel_names omap list_omap]. rewrite Hname.
  run. rewrite IH. cbn. by rewrite Hlen.
Qed.

Lemma names_of_length (d : dict) (ids : list string) :
  Forall (λ channel_id, channel_id ∈ dict_keys d) ids →
  length (names_of d ids) = length ids.
Proof.
  induction 1 as [|channel_id ids Hid _ IH]; [done|].
  apply dict_getitem_is_Some in Hid as [name Hname].
  unfold names_of in *. cbn [omap list_omap]. rewrite Hname. cbn. by rewrite IH.
Qed.

Lemma for_each_print {L} (f : string → string) (xs : list string) (l : L) (w : World S) :
  for_each xs (λ x, print (f x)) (l, w)
  = (Ok tt, (l, Build_World (server w) (trace w ++ ((λ x, Print (f x)) <$> xs)))).
Proof.
  revert w. induction xs as [|x xs IH]; intros [s tr].
  - cbn. by rewrite app_nil_r.
  - cbn [for_each]. run. rewrite IH. cbn. by rewrite <-app_assoc.
Qed.

Lemma sorted_length names : length (sorted names) = length names.
Proof. unfold sorted. by rewrite merge_sort_Permutation. Qed.

(** A block of the report whose ids all have a name in the mapping prints
    its lines and ends normally. *)
Lemma report_exclusive_present {L} (user_name : str_or_none) (d : dict)
    (only : gset string) (l : L) (w : World S) :
  (∀ channel_id, channel_id ∈ only → channel_id ∈ dict_keys d) →
  report_exclusive user_name d only (l, w)
  = (Ok tt,
     (l, Build_World (server w)
           (trace w ++ exclusive_lines user_name (sorted (names_of d (elements only)))))).
Proof.
  intros Hkeys. unfold report_exclusive.
  assert (Forall (λ channel_id, channel_id ∈ dict_keys d) (elements only)) as Hall.
  { apply Forall_forall. intros x Hx. apply Hkeys. by apply elem_of_elements. }
  destruct (channel_names_present d (elements only)
              (l, Build_World (server w)
                    (trace w ++ [Print (NL ++ "Channels only in " ++ fmt user_name ++ ":")]))
              Hall) as [Hnames Hlen].
  case_bool_decide as Hempty; cbn [negb].
  - subst only. rewrite elements_empty. done.
  - cbv [mbind M_bind]. unfold print at 1, emit at 1. cbn [fst snd server trace].
    rewrite Hnames, for_each_print.
    assert (length (sorted (names_of d (elements only))) ≠ 0%nat) as Hne.
    { rewrite sorted_length, Hlen. intros Hz. apply Hempty.
      apply leibniz_equiv, elements_empty_inv. by apply nil_length_inv. }
    destruct (sorted (names_of d (elements only))) as [|n names]; [done|].
    cbn. by rewrite <-app_assoc.
Qed.

(** The order of [sorted] is a total order. *)
Lemma ascii_compare_refl (a : ascii) : Ascii.compare a a = Eq.
Proof. unfold Ascii.compare. apply N.compare_refl. Qed.

Lemma string_compare_lt_trans (s1 s2 s3 : string) :
  String.compare s1 s2 = Lt → String.compare s2 s3 = Lt → String.compare s1 s3 = Lt.
Proof.
  revert s2 s3. induction s1 as [|a1 s1 IH]; intros [|a2 s2] [|a3 s3]; cbn; try done.
  destruct (Ascii.compare a1 a2) eqn:H12; try done;
    destruct (Ascii.compare a2 a3) eqn:H23; try done; intros Hs12 Hs23.
  - apply Ascii.compare_eq_iff in H12 as ->, H23 as ->.
    rewrite ascii_compare_refl. by eapply IH.
  - apply Ascii.compare_eq_iff in H12 as ->. by rewrite H23.
  - apply Ascii.compare_eq_iff in H23 as <-. by rewrite H12.
  - unfold Ascii.compare in *. rewrite N.compare_lt_iff in *.
    assert (N_of_ascii a1 < N_of_ascii a3)%N as Hlt by lia.
    apply N.compare_lt_iff in Hlt. by rewrite Hlt.
Qed.

Lemma string_leb_transitive : Transitive (λ a b : string, Is_true (String.leb a b)).
Proof.
  intros s1 s2 s3. rewrite !Is_true_true. unfold String.leb.
  destruct (String.compare s1 s2) eqn:H12; try done;
    destruct (String.compare s2 s3) eqn:H23; try done; intros _ _.
  - apply String.compare_eq_iff in H12 as ->. by rewrite H23.
  - apply String.compare_eq_iff in H12 as ->. by rewrite H23.
  - apply String.compare_eq_iff in H23 as <-. by rewrite H12.
  - by rewrite (string_compare_lt_trans _ _ _ H12 H23).
Qed.

Lemma string_leb_antisymm : AntiSymm (=) (λ a b : string, Is_true (String.leb a b)).
Proof. intros a b Hab Hba. apply String.leb_antisym; by apply Is_true_true. Qed.

Lemma string_leb_total : Total (λ a b : string, Is_true (String.leb a b)).
Proof.
  intros a b. destruct (String.leb_total a b) as [H|H]; rewrite H; [by left|by right].
Qed.

Lemma sorted_Sorted names : Sorted (λ a b : string, String.leb a b) (sorted names).
Proof. unfold sorted. apply Sorted_merge_sort, string_leb_total. Qed.

(** Whatever the algorithm, the result of sorting is [sorted]: it is the
    only sorted permutation of the list. *)
Lemma sorted_unique (names out : list string) :
  out ≡ₚ names → Sorted (λ a b : string, String.leb a b) out → out = sorted names.
Proof.
  intros Hperm Hsorted.
  pose proof string_leb_transitive. pose proof string_leb_antisymm.
  apply (Sorted_unique (λ a b : string, Is_true (String.leb a b))).
  - done.
  - apply sorted_Sorted.
  - unfold sorted. by rewrite merge_sort_Permutation.
Qed.

Lemma names_of_elem (d : dict) (ids : list string) (name : string) :
  name ∈ names_of d ids ↔ ∃ channel_id, channel_id ∈ ids ∧ dict_getitem channel_id d = Some name.
Proof. unfold names_of. apply list_elem_of_omap. Qed.

End Reporter.

Section Comparison.
Context {S : Type} {client : WebClient S}.

Lemma report_present {L} (user_name_1 user_name_2 : str_or_none) (d : dict)
    (set1 set2 : gset string) (st : L * World S) :
  (∀ channel_id, channel_id ∈ set1 ∨ channel_id ∈ set2 → channel_id ∈ dict_keys d) →
  ∃ st', report user_name_1 user_name_2 d set1 set2 st = (Ok tt, st').
Proof.
  intros Hkeys. destruct st as [l w]. unfold report.
  cbv [mbind M_bind]. unfold print, emit. cbn [fst snd server trace].
  rewrite report_exclusive_present.
  - rewrite report_exclusive_present; [by eexists|].
    unfold only_in_user_2. set_solver.
  - unfold only_in_user_1. set_solver.
Qed.

(** C9: the two sets [get_users_channel_ids] returns hold only ids of
    the collection it was given.  So when that collection is the keys
    of the channel mapping, every id of the two differences has a name
    in the mapping, and the report, whose lookups then all succeed, ends
    normally. *)
Theorem membership_sets_within_input {L} (fuel : nat)
    (user_id_1 user_id_2 : str_or_none) (all_channel_ids : list string)
    (st st' : L * World S) (set1 set2 : gset string) :
  get_users_channel_ids fuel user_id_1 user_id_2 all_channel_ids st
  = (Ok (set1, set2), st') →
  (∀ channel_id, channel_id ∈ set1 ∨ channel_id ∈ set2 →
                 channel_id ∈ all_channel_ids)
  ∧ ∀ all_channels : dict,
      all_channel_ids = dict_keys all_channels →
      (∀ channel_id,
         channel_id ∈ only_in_user_1 set1 set2 ∨ channel_id ∈ only_in_user_2 set1 set2 →
         is_Some (dict_getitem channel_id all_channels))
      ∧ ∀ (user_name_1 user_name_2 : str_or_none) (st0 : L * World S),
          ∃ st1, report user_name_1 user_name_2 all_channels set1 set2 st0
                 = (Ok tt, st1).
Proof.
  intros [H1 H2]%get_users_channel_ids_within.
  assert (∀ channel_id, channel_id ∈ set1 ∨ channel_id ∈ set2 →
                        channel_id ∈ all_channel_ids) as Hin.
  { intros x [Hx|Hx]; [apply H1 in Hx|apply H2 in Hx];
      by apply elem_of_list_to_set in Hx. }
  split; [exact Hin|].
  intros d ->. split.
  - intros x Hx. apply dict_getitem_is_Some, Hin.
    unfold only_in_user_1, only_in_user_2 in Hx. set_solver.
  - intros n1 n2 st0. by apply report_present.
Qed.

Lemma get_user_id_by_email_replied (email : string) (r : User + ErrorResponse)
    (s s' : S) (tr : list Event) :
  users_lookupByEmail email s = (reply_of r, s') →
  get_user_id_by_email email (tt, Build_World s tr)
  = (Ok match r with
        | inl u => (Some (user_id u), Some (real_name u))
        | inr _ => (None, None)
        end,
     (tt, Build_World s' (tr ++ lookup_events email r))).
Proof.
  intros Hr. unfold get_user_id_by_email. run. rewrite Hr.
  destruct r as [u|e]; reduce; by rewrite <-!app_assoc.
Qed.

Lemma exclusive_lines_of_difference (name : string) (d : dict) (only : gset string) :
  (∀ channel_id, channel_id ∈ only → channel_id ∈ dict_keys d) →
  exclusive_lines (Some name) (sorted (names_of d (elements only)))
  = if bool_decide (only = ∅)
    then [Print (NL ++ "No channels are exclusive to " ++ name ++ ".")]
    else Print (NL ++ "Channels only in " ++ name ++ ":")
           :: ((λ channel_name, Print ("- " ++ channel_name))
                 <$> sorted (names_of d (elements only))).
Proof.
  intros Hkeys.
  assert (length (sorted (names_of d (elements only))) = size only) as Hlen.
  { assert (Forall (λ channel_id, channel_id ∈ dict_keys d) (elements only)) as Hall.
    { apply Forall_forall. intros x Hx. apply Hkeys. by apply elem_of_elements. }
    by rewrite sorted_length, (names_of_length _ _ Hall). }
  case_bool_decide as Hempty.
  - subst only. by rewrite elements_empty.
  - destruct (sorted (names_of d (elements only))) as [|n names]; [|done].
    cbn in Hlen. symmetry in Hlen. apply size_empty_inv in Hlen.
    by apply leibniz_equiv in Hlen.
Qed.

(** C8: in every run that reaches the report (both users resolved, the
    mapping [d] enumerated, the sets [set1] and [set2] scanned from its
    keys), [compare_user_channels] prints the two counts and then the
    block of user 1, under the resolved name of user 1, for
    [set1 - set2], followed by the block of user 2, under the name of
    user 2, for [set2 - set1].  When [set1] is included in [set2] the
    block of user 1 is, after an empty line, exactly "No channels are
    exclusive to {name1}."; a block whose difference is not empty is its
    heading and then, one per line, the names the mapping gives to the
    ids of the difference, in ascending lexicographic order; the names
    Zeta, Alpha, mid are printed in the order Alpha, Zeta, mid. *)
Theorem report_of_exclusive_channels (fuel : nat) (email_1 email_2 : string)
    (u1 u2 : User) (d : dict) (set1 set2 : gset string)
    (s s1 s2 : S) (tr : list Event) (w3 w4 : World S) :
  users_lookupByEmail email_1 s = (Returns u1, s1) →
  users_lookupByEmail email_2 s1 = (Returns u2, s2) →
  user_id u1 ≠ "" → user_id u2 ≠ "" →
  get_channel_ids fuel
    (tt, Build_World s2
           (tr ++ [Print ("Comparing channels for " ++ email_1 ++ " and " ++ email_2
                          ++ "..." ++ NL)]
               ++ lookup_events email_1 (inl u1) ++ lookup_events email_2 (inl u2)))
  = (Ok d, (tt, w3)) →
  get_users_channel_ids fuel (Some (user_id u1)) (Some (user_id u2)) (dict_keys d)
                        (tt, w3)
  = (Ok (set1, set2), (tt, w4)) →
  let names (only : gset string) := sorted (names_of d (elements only)) in
  let block (name : string) (only : gset string) :=
    if bool_decide (only = ∅)
    then [Print (NL ++ "No channels are exclusive to " ++ name ++ ".")]
    else Print (NL ++ "Channels only in " ++ name ++ ":")
           :: ((λ channel_name, Print ("- " ++ channel_name)) <$> names only) in
  compare_user_channels fuel email_1 email_2 (tt, Build_World s tr)
  = (Ok tt,
     (tt, Build_World (server w4)
            (trace w4
               ++ [Print (real_name u1 ++ " is part of " ++ pretty (size set1)
                          ++ " channels.");
                   Print (real_name u2 ++ " is part of " ++ pretty (size set2)
                          ++ " channels.");
                   Print (NL ++ "Comparing channel memberships...")]
               ++ block (real_name u1) (set1 ∖ set2)
               ++ block (real_name u2) (set2 ∖ set1))))
  ∧ (set1 ⊆ set2 →
     block (real_name u1) (set1 ∖ set2)
     = [Print (NL ++ "No channels are exclusive to " ++ real_name u1 ++ ".")])
  ∧ (∀ only, only = set1 ∖ set2 ∨ only = set2 ∖ set1 →
       names only ≡ₚ names_of d (elements only)
       ∧ Sorted (λ a b : string, String.leb a b) (names only)
       ∧ length (names only) = size only
       ∧ ∀ name, name ∈ names only
                 ↔ ∃ channel_id, channel_id ∈ only
                                 ∧ dict_getitem channel_id d = Some name)
  ∧ sorted ["Zeta"; "Alpha"; "mid"] = ["Alpha"; "Zeta"; "mid"].
Proof.
  intros Hr1 Hr2 Hid1 Hid2 Hget Hscan names block.
  destruct (get_users_channel_ids_within _ _ _ _ _ _ _ _ Hscan) as [Hin1 Hin2].
  assert (∀ channel_id, channel_id ∈ set1 ∨ channel_id ∈ set2 →
                        channel_id ∈ dict_keys d) as Hkeys.
  { intros x [Hx|Hx]; [apply Hin1 in Hx|apply Hin2 in Hx];
      by apply elem_of_list_to_set in Hx. }
  split; [|split; [|split]].
  - unfold compare_user_channels.
    cbv [mbind M_bind]. unfold print at 1, emit at 1. cbn [fst snd server trace].
    rewrite (get_user_id_by_email_replied _ (inl u1) _ _ _ Hr1). cbv beta iota.
    rewrite (get_user_id_by_email_replied _ (inl u2) _ _ _ Hr2). cbv beta iota.
    assert (negb (truthy (Some (user_id u1))) || negb (truthy (Some (user_id u2)))
            = false) as ->.
    { cbn [truthy]. apply String.eqb_neq in Hid1 as ->, Hid2 as ->. done. }
    rewrite <-!app_assoc. rewrite Hget. cbv beta iota. rewrite Hscan. cbv beta iota.
    unfold report. cbv [mbind M_bind]. unfold print, emit. cbn [fst snd server trace].
    rewrite report_exclusive_present by (unfold only_in_user_1; set_solver).
    rewrite report_exclusive_present by (unfold only_in_user_2; set_solver).
    cbn [server trace fmt]. unfold only_in_user_1, only_in_user_2.
    rewrite !exclusive_lines_of_difference by set_solver.
    unfold block, names. by rewrite <-!app_assoc.
  - intros Hsub. unfold block.
    assert (set1 ∖ set2 = ∅) as -> by set_solver.
    by rewrite bool_decide_eq_true_2.
  - intros only Honly.
    assert (Forall (λ channel_id, channel_id ∈ dict_keys d) (elements only)) as Hall.
    { apply Forall_forall. intros x Hx%elem_of_elements. apply Hkeys.
      destruct Honly as [-> | ->]; set_solver. }
    pose proof (names_of_length _ _ Hall) as Hlen.
    unfold names. split; [apply merge_sort_Permutation|].
    split; [apply sorted_Sorted|]. split; [by rewrite sorted_length, Hlen|].
    intros name. unfold sorted. rewrite merge_sort_Permutation, names_of_elem.
    by setoid_rewrite elem_of_elements.
  - by vm_compute.
Qed.

(** C6: when the two lookups are answered and at least one of them with
    an API error, [compare_user_channels] logs that error, prints
    "Unable to retrieve user IDs for comparison." and returns: it sends
    no channel listing request and no membership request and prints no
    report. *)
Theorem failed_lookup_aborts_comparison (fuel : nat) (email_1 email_2 : string)
    (r1 r2 : User + ErrorResponse) (s s1 s2 : S) (tr : list Event) :
  users_lookupByEmail email_1 s = (reply_of r1, s1) →
  users_lookupByEmail email_2 s1 = (reply_of r2, s2) →
  (∃ e, r1 = inr e) ∨ (∃ e, r2 = inr e) →
  let events :=
    ([Print ("Comparing channels for " ++ email_1 ++ " and " ++ email_2 ++ "..." ++ NL)]
       ++ lookup_events email_1 r1
       ++ lookup_events email_2 r2
       ++ [Print "Unable to retrieve user IDs for comparison."])%list in
  compare_user_channels fuel email_1 email_2 (tt, Build_World s tr)
  = (Ok tt, (tt, Build_World s2 (tr ++ events)))
  ∧ list_requests events = 0%nat
  ∧ members_requests events = 0%nat.
Proof.
  intros Hr1 Hr2 Hfail events. split; [|split].
  - unfold compare_user_channels.
    cbv [mbind M_bind]. unfold print at 1, emit at 1. cbn [fst snd server trace].
    rewrite (get_user_id_by_email_replied _ _ _ _ _ Hr1).
    destruct r1 as [u1|e1]; cbv beta iota;
      rewrite (get_user_id_by_email_replied _ _ _ _ _ Hr2);
      destruct r2 as [u2|e2]; cbv beta iota.
    + by destruct Hfail as [[e ?]|[e ?]].
    + cbn [truthy negb orb]. rewrite orb_true_r.
      unfold print, emit, events. cbn [fst snd server trace].
      by rewrite <-!app_assoc.
    + cbn [truthy negb orb].
      unfold print, emit, events. cbn [fst snd server trace].
      by rewrite <-!app_assoc.
    + cbn [truthy negb orb].
      unfold print, emit, events. cbn [fst snd server trace].
      by rewrite <-!app_assoc.
  - unfold events, lookup_events. cbn [app]. rewrite !list_requests_cons.
    by destruct r1, r2.
  - unfold events, lookup_events. cbn [app]. rewrite !members_requests_cons.
    by destruct r1, r2.
Qed.
End Comparison.

(** * Further properties of the script *)

Section NoApiError.
Context {S : Type} {client : WebClient S}.

Lemma no_api_error_ret {L A} (a : A) : no_api_error (mret a : M S L A).
Proof. by intros st e. Qed.

Lemma no_api_error_bind {L A B} (m : M S L A) (k : A → M S L B) :
  no_api_error m → (∀ a, no_api_error (k a)) → no_api_error (m ≫= k).
Proof.
  intros Hm Hk st e. unfold mbind, M_bind.
  specialize (Hm st). destruct (m st) as [[a|x|] st1]; cbn in *.
  - apply Hk.
  - intros [= ->]. by eapply Hm.
  - done.
Qed.

Lemma no_api_error_emit {L} (ev : Event) : no_api_error (emit ev : M S L unit).
Proof. by intros st e. Qed.

Lemma no_api_error_print {L} (text : string) : no_api_error (print text : M S L unit).
Proof. apply no_api_error_emit. Qed.

Lemma no_api_error_assign {L} (f : L → L) : no_api_error (assign f : M S L unit).
Proof. by intros st e. Qed.

Lemma no_api_error_locals {L} : no_api_error (locals : M S L L).
Proof. by intros st e. Qed.

Lemma no_api_error_time_sleep {L} (n : Z) : no_api_error (time_sleep n : M S L unit).
Proof.
  intros st e. unfold time_sleep.
  destruct ((n <? - max_sleep)%Z || (max_sleep <? n)%Z); [done|].
  by destruct (n <? 0)%Z.
Qed.

Lemma no_api_error_int_or_raise {L} (n : option Z) :
  no_api_error (int_or_raise n : M S L Z).
Proof. intros st e. by destruct n. Qed.

Lemma no_api_error_try_except {L A} (body : M S L A) (handler : ErrorResponse → M S L A) :
  (∀ e, no_api_error (handler e)) → no_api_error (try_except body handler).
Proof.
  intros Hh st e. unfold try_except.
  destruct (body st) as [[a|[e'| | | |what]|] st1]; try done. apply Hh.
Qed.

Lemma no_api_error_call {L L' A} (init : L') (f : M S L' A) :
  no_api_error f → no_api_error (call init f : M S L A).
Proof.
  intros Hf st e. unfold call. specialize (Hf (init, st.2) e).
  by destruct (f (init, st.2)) as [r st1].
Qed.

Lemma no_api_error_for_each {L X} (xs : list X) (body : X → M S L unit) :
  (∀ x, no_api_error (body x)) → no_api_error (for_each xs body).
Proof.
  intros Hb. induction xs as [|x xs IH]; [apply no_api_error_ret|].
  cbn [for_each]. apply no_api_error_bind; [apply Hb|by intros _].
Qed.

Lemma no_api_error_while_true {L} (fuel : nat) (body : M S L flow) :
  no_api_error body → no_api_error (while_true fuel body).
Proof.
  intros Hb. induction fuel as [|fuel IH]; [by intros st e|].
  cbn [while_true]. apply no_api_error_bind; [done|].
  intros [|]; [done|apply no_api_error_ret].
Qed.

Lemma no_api_error_if {L A} (b : bool) (m1 m2 : M S L A) :
  no_api_error m1 → no_api_error m2 → no_api_error (if b then m1 else m2).
Proof. by destruct b. Qed.

Lemma no_api_error_get_user_id_by_email (email : string) :
  no_api_error (get_user_id_by_email email).
Proof.
  unfold get_user_id_by_email.
  apply no_api_error_bind; [apply no_api_error_print|intros _].
  apply no_api_error_try_except. intros e.
  apply no_api_error_bind; [apply no_api_error_print|intros _].
  apply no_api_error_ret.
Qed.

Lemma no_api_error_get_channel_ids {L} (fuel : nat) :
  no_api_error (get_channel_ids fuel : M S L dict).
Proof.
  unfold get_channel_ids, get_channel_ids_body. apply no_api_error_call.
  apply no_api_error_bind; [apply no_api_error_print|intros _].
  apply no_api_error_bind.
  { apply no_api_error_try_except. intros e. apply no_api_error_print. }
  intros _. apply no_api_error_bind; [apply no_api_error_locals|intros l].
  repeat (apply no_api_error_bind; [apply no_api_error_print|intros _]).
  apply no_api_error_ret.
Qed.

Lemma no_api_error_query_members u1 u2 c : no_api_error (query_members u1 u2 c).
Proof.
  unfold query_members. apply no_api_error_try_except. intros e.
  apply no_api_error_if.
  - apply no_api_error_bind; [apply no_api_error_int_or_raise|intros h].
    apply no_api_error_bind; [apply no_api_error_print|intros _].
    apply no_api_error_bind; [apply no_api_error_time_sleep|intros _].
    apply no_api_error_ret.
  - apply no_api_error_bind; [apply no_api_error_print|intros _].
    apply no_api_error_ret.
Qed.

Lemma no_api_error_scan fuel u1 u2 (ids : list string) :
  no_api_error (for_each ids (check_membership fuel u1 u2)).
Proof.
  apply no_api_error_for_each. intros c.
  apply no_api_error_while_true, no_api_error_query_members.
Qed.

Lemma no_api_error_channel_names {L} (d : dict) (ids : list string) :
  no_api_error (channel_names d ids : M S L (list string)).
Proof.
  induction ids as [|c ids IH]; [apply no_api_error_ret|].
  cbn [channel_names]. destruct (dict_getitem c d); [|by intros st e].
  apply no_api_error_bind; [exact IH|intros names]. apply no_api_error_ret.
Qed.

Lemma no_api_error_report_exclusive {L} user_name (d : dict) (only : gset string) :
  no_api_error (report_exclusive user_name d only : M S L unit).
Proof.
  unfold report_exclusive. apply no_api_error_if; [|apply no_api_error_print].
  apply no_api_error_bind; [apply no_api_error_print|intros _].
  apply no_api_error_bind; [apply no_api_error_channel_names|intros names].
  apply no_api_error_for_each. intros n. apply no_api_error_print.
Qed.

Lemma try_except_scan (fuel : nat) (u1 u2 : str_or_none) (ids : list string)
    (handler : ErrorResponse → M S MemberLocals unit) (st : MemberLocals * World S) :
  try_except (for_each ids (check_membership fuel u1 u2)) handler st
  = for_each ids (check_membership fuel u1 u2) st.
Proof.
  unfold try_except.
  pose proof (no_api_error_scan fuel u1 u2 ids st) as Hno.
  destruct (for_each _ _ st) as [[a|[e| | | |what]|] st1]; try done.
  by destruct (Hno e).
Qed.

(** X1: the [except SlackApiError] clause around the scan of
    [get_users_channel_ids] (lines 109-110) is never entered: whatever the
    remote side does, the loop over the channels lets no API error out,
    so the function behaves as its [try] block alone and the line
    "Error fetching channel memberships" is never printed. *)
Theorem outer_except_of_scan_is_dead (fuel : nat) (user_id_1 user_id_2 : str_or_none)
    (all_channel_ids : list string) (handler : ErrorResponse → M S MemberLocals unit)
    (st : MemberLocals * World S) :
  try_except (for_each all_channel_ids (check_membership fuel user_id_1 user_id_2))
             handler st
  = for_each all_channel_ids (check_membership fuel user_id_1 user_id_2) st.
Proof.
  unfold try_except.
  pose proof (no_api_error_scan fuel user_id_1 user_id_2 all_channel_ids st) as Hno.
  destruct (for_each _ _ st) as [[a|[e| | | |what]|] st1]; try done.
  by destruct (Hno e).
Qed.

(** X2: no [SlackApiError] ever escapes [compare_user_channels]: whatever
    the remote side does and however long the loops run, the comparison
    does not end with an API error raised. *)
Theorem compare_never_raises_api_error (fuel : nat) (email_1 email_2 : string)
    (st : unit * World S) :
  raised_api_error (compare_user_channels fuel email_1 email_2 st).1 = false.
Proof.
  assert (no_api_error (compare_user_channels fuel email_1 email_2)) as Hno;
    [|specialize (Hno st);
      destruct (compare_user_channels fuel email_1 email_2 st).1 as [a|[e| | | |what]|];
      [done|by destruct (Hno e)|done..]].
  unfold compare_user_channels.
  apply no_api_error_bind; [apply no_api_error_print|intros _].
  apply no_api_error_bind; [apply no_api_error_get_user_id_by_email|intros [id1 n1]].
  apply no_api_error_bind; [apply no_api_error_get_user_id_by_email|intros [id2 n2]].
  apply no_api_error_if; [apply no_api_error_print|].
  apply no_api_error_bind; [apply no_api_error_get_channel_ids|intros d].
  apply no_api_error_bind.
  - unfold get_users_channel_ids, get_users_channel_ids_body. apply no_api_error_call.
    apply no_api_error_bind; [apply no_api_error_print|intros _].
    apply no_api_error_bind.
    { apply no_api_error_try_except. intros e. apply no_api_error_print. }
    intros _. apply no_api_error_bind; [apply no_api_error_locals|intros l].
    apply no_api_error_ret.
  - intros [set1 set2]. unfold report.
    repeat (apply no_api_error_bind; [apply no_api_error_print|intros _]).
    apply no_api_error_bind; [apply no_api_error_report_exclusive|intros _].
    apply no_api_error_report_exclusive.
Qed.

End NoApiError.

Section Lookups.
Context {S : Type} {client : WebClient S}.

Lemma lookup_requests_cons (ev : Event) (tr : list Event) :
  lookup_requests (ev :: tr)
  = ((if is_lookup_request ev then 1 else 0) + lookup_requests tr)%nat.
Proof.
  unfold lookup_requests. rewrite filter_cons.
  destruct (is_lookup_request ev); case_decide; done.
Qed.

Lemma lookup_requests_app (tr1 tr2 : list Event) :
  lookup_requests (tr1 ++ tr2) = (lookup_requests tr1 + lookup_requests tr2)%nat.
Proof. unfold lookup_requests. by rewrite filter_app, length_app. Qed.

Lemma get_user_id_by_email_raises (email : string) (x : exn) (s s' : S)
    (tr : list Event) :
  users_lookupByEmail email s = (Raises x, s') →
  uncaught x →
  get_user_id_by_email email (tt, Build_World s tr)
  = (Raised x,
     (tt, Build_World s'
            (tr ++ [Print ("Looking up user ID for email: " ++ email);
                    Call (UsersLookupByEmail email)]))).
Proof.
  intros Hr Hx. unfold get_user_id_by_email. run. rewrite Hr.
  destruct x as [e| | | |what]; [by destruct (Hx e)|..]; reduce;
    by rewrite <-!app_assoc.
Qed.

(** X3: [get_user_id_by_email] sends one lookup request and never a second
    one, whatever the reply.  A user returned is logged and gives its id
    and name; an API error is logged, with its code, and gives
    [(None, None)] without escaping; any other exception of the client
    escapes as it is, with nothing logged after the request.  The result
    has an id exactly when it has a name. *)
Theorem lookup_is_tried_once (email : string) (s : S) (tr : list Event) :
  let reply := users_lookupByEmail email s in
  let logged :=
    match reply.1 with
    | Returns u => [Print ("User ID for " ++ email ++ ": " ++ user_id u)]
    | Raises (SlackApiError e) =>
        [Print ("Error fetching user ID for email " ++ email ++ ": " ++ error e)]
    | Raises _ => []
    end in
  let events :=
    Print ("Looking up user ID for email: " ++ email)
      :: Call (UsersLookupByEmail email) :: logged in
  let result :=
    match reply.1 with
    | Returns u => Ok (Some (user_id u), Some (real_name u))
    | Raises (SlackApiError _) => Ok (None, None)
    | Raises x => Raised x
    end in
  get_user_id_by_email email (tt, Build_World s tr)
  = (result, (tt, Build_World reply.2 (tr ++ events)))
  ∧ lookup_requests events = 1%nat
  ∧ list_requests events = 0%nat
  ∧ members_requests events = 0%nat
  ∧ ∀ id name, result = Ok (id, name) → (id = None ↔ name = None).
Proof.
  destruct (users_lookupByEmail email s) as [r s'] eqn:Hr. cbn [fst snd].
  assert (∀ logged,
            Forall (λ ev, ∃ text, ev = Print text) logged →
            lookup_requests
              (Print ("Looking up user ID for email: " ++ email)
                 :: Call (UsersLookupByEmail email) :: logged) = 1%nat
            ∧ list_requests
                (Print ("Looking up user ID for email: " ++ email)
                   :: Call (UsersLookupByEmail email) :: logged) = 0%nat
            ∧ members_requests
                (Print ("Looking up user ID for email: " ++ email)
                   :: Call (UsersLookupByEmail email) :: logged) = 0%nat) as Hcount.
  { intros logged Hlogged.
    rewrite !lookup_requests_cons, !list_requests_cons, !members_requests_cons.
    cbn [is_lookup_request is_list_request is_members_request].
    induction Hlogged as [|ev logged [text ->] _ (IH1 & IH2 & IH3)]; [done|].
    rewrite lookup_requests_cons, list_requests_cons, members_requests_cons.
    cbn [is_lookup_request is_list_request is_members_request]. lia. }
  destruct r as [u|[e| | | |what]].
  - rewrite (get_user_id_by_email_replied email (inl u) s s' tr Hr).
    split; [reflexivity|].
    destruct (Hcount [Print ("User ID for " ++ email ++ ": " ++ user_id u)])
      as (H1 & H2 & H3); [repeat constructor; by eexists|].
    split; [exact H1|]. split; [exact H2|]. split; [exact H3|].
    intros id name [= <- <-]. split; intros Hn; discriminate Hn.
  - rewrite (get_user_id_by_email_replied email (inr e) s s' tr Hr).
    split; [reflexivity|].
    destruct (Hcount [Print ("Error fetching user ID for email " ++ email ++ ": "
                             ++ error e)])
      as (H1 & H2 & H3); [repeat constructor; by eexists|].
    split; [exact H1|]. split; [exact H2|]. split; [exact H3|].
    intros id name [= <- <-]. split; reflexivity.
  - rewrite (get_user_id_by_email_raises _ _ _ _ _ Hr) by (by intros e).
    split; [reflexivity|].
    destruct (Hcount []) as (H1 & H2 & H3); [constructor|].
    split; [exact H1|]. split; [exact H2|]. split; [exact H3|].
    intros id name Hok. discriminate Hok.
  - rewrite (get_user_id_by_email_raises _ _ _ _ _ Hr) by (by intros e).
    split; [reflexivity|].
    destruct (Hcount []) as (H1 & H2 & H3); [constructor|].
    split; [exact H1|]. split; [exact H2|]. split; [exact H3|].
    intros id name Hok. discriminate Hok.
  - rewrite (get_user_id_by_email_raises _ _ _ _ _ Hr) by (by intros e).
    split; [reflexivity|].
    destruct (Hcount []) as (H1 & H2 & H3); [constructor|].
    split; [exact H1|]. split; [exact H2|]. split; [exact H3|].
    intros id name Hok. discriminate Hok.
  - rewrite (get_user_id_by_email_raises _ _ _ _ _ Hr) by (by intros e).
    split; [reflexivity|].
    destruct (Hcount []) as (H1 & H2 & H3); [constructor|].
    split; [exact H1|]. split; [exact H2|]. split; [exact H3|].
    intros id name Hok. discriminate Hok.
Qed.

(** X4: a lookup that succeeds with an empty user id stops the comparison
    like a failed one: the guard [if not user_id_1 or not user_id_2] is
    false for the empty string too, so the message "Unable to retrieve
    user IDs for comparison." is printed after both lookups were logged as
    successful, and no channel is listed or scanned. *)
Theorem empty_user_id_aborts_comparison (fuel : nat) (email_1 email_2 : string)
    (u1 u2 : User) (s s1 s2 : S) (tr : list Event) :
  users_lookupByEmail email_1 s = (Returns u1, s1) →
  users_lookupByEmail email_2 s1 = (Returns u2, s2) →
  user_id u1 = "" ∨ user_id u2 = "" →
  let events :=
    ([Print ("Comparing channels for " ++ email_1 ++ " and " ++ email_2 ++ "..." ++ NL)]
       ++ lookup_events email_1 (inl u1)
       ++ lookup_events email_2 (inl u2)
       ++ [Print "Unable to retrieve user IDs for comparison."])%list in
  compare_user_channels fuel email_1 email_2 (tt, Build_World s tr)
  = (Ok tt, (tt, Build_World s2 (tr ++ events)))
  ∧ list_requests events = 0%nat
  ∧ members_requests events = 0%nat.
Proof.
  intros Hr1 Hr2 Hempty events. split; [|split].
  - unfold compare_user_channels.
    cbv [mbind M_bind]. unfold print at 1, emit at 1. cbn [fst snd server trace].
    rewrite (get_user_id_by_email_replied _ (inl u1) _ _ _ Hr1). cbv beta iota.
    rewrite (get_user_id_by_email_replied _ (inl u2) _ _ _ Hr2). cbv beta iota.
    assert (negb (truthy (Some (user_id u1))) || negb (truthy (Some (user_id u2)))
            = true) as ->.
    { cbn [truthy]. destruct Hempty as [-> | ->]; cbn; [done|apply orb_true_r]. }
    unfold print, emit, events. cbn [fst snd server trace].
    by rewrite <-!app_assoc.
  - unfold events, lookup_events. cbn [app]. by rewrite !list_requests_cons.
  - unfold events, lookup_events. cbn [app]. by rewrite !members_requests_cons.
Qed.

(** X5: an exception of the first lookup that is not a [SlackApiError] (a
    failure of the transport) is not caught anywhere: it ends
    [compare_user_channels], the second lookup is not sent and nothing is
    printed after the request. *)
Theorem transport_failure_of_lookup_escapes (fuel : nat) (email_1 email_2 : string)
    (x : exn) (s s1 : S) (tr : list Event) :
  users_lookupByEmail email_1 s = (Raises x, s1) →
  uncaught x →
  compare_user_channels fuel email_1 email_2 (tt, Build_World s tr)
  = (Raised x,
     (tt, Build_World s1
            (tr ++ [Print ("Comparing channels for " ++ email_1 ++ " and " ++ email_2
                           ++ "..." ++ NL);
                    Print ("Looking up user ID for email: " ++ email_1);
                    Call (UsersLookupByEmail email_1)]))).
Proof.
  intros Hr Hx. unfold compare_user_channels.
  cbv [mbind M_bind]. unfold print at 1, emit at 1. cbn [fst snd server trace].
  rewrite (get_user_id_by_email_raises _ _ _ _ _ Hr Hx).
  by rewrite <-!app_assoc.
Qed.

End Lookups.

Section Listings.
Context {S : Type} {client : WebClient S}.

Lemma while_fetch_page_raises s cur pages x s' :
  pages_then s cur pages (Raises x) s' →
  ∀ fuel l tr,
    (length pages < fuel)%nat → cursor l = cur →
    while_true fuel fetch_page (l, Build_World s tr)
    = (Raised x,
       (fold_left turned pages l,
        Build_World s'
          (tr ++ page_calls cur pages
              ++ [Call (ConversationsList "public_channel,private_channel" 100
                                          (cursor_after cur pages))]))).
Proof.
  remember (Raises x) as r eqn:Hr.
  induction 1 as [s cur r s' Hc|s cur p s1 pages r s' Hc Ht _ IH];
    intros fuel l tr Hfuel <-; subst r;
    (destruct fuel as [|fuel]; [cbn in Hfuel; lia|]);
    cbn [while_true]; unfold mbind at 1, M_bind at 1.
  - by rewrite (fetch_page_raises _ _ _ _ _ Hc).
  - rewrite (fetch_page_returns _ _ _ _ _ Hc), Ht.
    rewrite IH; [|done|cbn in Hfuel; lia|done].
    cbn [fold_left page_calls cursor_after]. by rewrite <-app_assoc.
Qed.

(** X6: an exception of a listing request that is not a [SlackApiError]
    is not caught by [get_channel_ids]: after any number of pages it ends
    the function, which returns nothing and prints none of its three
    totals; the pages collected so far are lost with it. *)
Theorem transport_failure_of_listing_escapes {L} (s s' : S) (pages : list Page)
    (x : exn) (fuel : nat) (l : L) (tr : list Event) :
  pages_then s None pages (Raises x) s' →
  uncaught x →
  (length pages < fuel)%nat →
  get_channel_ids fuel (l, Build_World s tr)
  = (Raised x,
     (l, Build_World s'
           (tr ++ [Print "Fetching all non-archived channel IDs (including private channels)..."]
               ++ page_calls None pages
               ++ [Call (ConversationsList "public_channel,private_channel" 100
                                           (cursor_after None pages))]))).
Proof.
  intros Hp Hx Hfuel. unfold get_channel_ids, get_channel_ids_body. run.
  erewrite while_fetch_page_raises; [|done..].
  destruct x as [e| | | |what]; [by destruct (Hx e)|..];
    cbn [fst snd server trace]; by rewrite <-?app_assoc.
Qed.

Lemma dict_setitem_length (k v : string) (d : dict) :
  (length (dict_setitem k v d) ≤ Datatypes.S (length d))%nat.
Proof.
  induction d as [|[k' v'] d IH]; cbn; [lia|].
  destruct (String.eqb k' k); cbn; lia.
Qed.

Lemma mapping_from_length_le (d : dict) (chs : list Channel) :
  (length (mapping_from d chs) ≤ length d + length (active chs))%nat.
Proof.
  revert d. induction chs as [|c chs IH]; intros d.
  - unfold mapping_from, active. cbn. lia.
  - rewrite mapping_from_cons. unfold active in *. rewrite filter_cons.
    destruct (is_archived c); case_decide; try done; try apply IH.
    etrans; [apply IH|].
    pose proof (dict_setitem_length (channel_id c) (channel_name c) d).
    cbn [length]. lia.
Qed.

Lemma mapping_from_keys (d : dict) (chs : list Channel) (k : string) :
  k ∈ dict_keys (mapping_from d chs)
  ↔ k ∈ dict_keys d ∨ k ∈ channel_id <$> active chs.
Proof.
  revert d. induction chs as [|c chs IH]; intros d.
  - unfold mapping_from, active. cbn. rewrite elem_of_nil. tauto.
  - rewrite mapping_from_cons, IH. unfold active. rewrite filter_cons.
    destruct (is_archived c); case_decide; try done.
    rewrite dict_keys_setitem, fmap_cons, elem_of_cons. tauto.
Qed.

(** X7: on every listing, also one cut by an API error or one that lists
    an id more than once, the public and the private count that
    [get_channel_ids] prints add up to the number of listed channels that
    are not archived, while the total it prints, the size of the mapping,
    is the number of distinct ids among them: the total never exceeds the
    sum of the two counts. *)
Theorem counts_cover_every_active_channel {L} (s s' : S) (pages : list Page)
    (fin : option ErrorResponse) (fuel : nat) (l : L) (tr : list Event) :
  listing s None pages fin s' →
  (rounds pages fin ≤ fuel)%nat →
  ∃ d public private before,
    get_channel_ids fuel (l, Build_World s tr)
    = (Ok d, (l, Build_World s' (tr ++ before ++ totals d public private)))
    ∧ (public + private)%nat = length (active (listed pages))
    ∧ length d = size (list_to_set (channel_id <$> active (listed pages)) : gset string)
    ∧ (length d ≤ public + private)%nat.
Proof.
  intros Hl Hfuel.
  exists (mapping_from [] (listed pages)), (count_active false (listed pages)),
    (count_active true (listed pages)),
    ([Print "Fetching all non-archived channel IDs (including private channels)..."]
       ++ page_calls None pages ++ failed_call (cursor_after None pages) fin)%list.
  split; [|split; [|split]].
  - rewrite (get_channel_ids_listing _ _ _ _ _ _ _ Hl Hfuel).
    by rewrite <-!app_assoc.
  - apply count_active_total.
  - assert (NoDup (dict_keys (mapping_from [] (listed pages)))) as Hnd.
    { apply mapping_from_NoDup, NoDup_nil_2. }
    rewrite <-(length_fmap fst (mapping_from [] (listed pages))).
    change (fst <$> mapping_from [] (listed pages))
      with (dict_keys (mapping_from [] (listed pages))).
    rewrite <-(size_list_to_set (C := gset string)) by done.
    f_equal. apply set_eq. intros k.
    rewrite !elem_of_list_to_set, mapping_from_keys.
    unfold dict_keys. cbn. rewrite elem_of_nil. tauto.
  - rewrite count_active_total.
    pose proof (mapping_from_length_le [] (listed pages)) as Hle. cbn in Hle. lia.
Qed.

Lemma dict_getitem_setitem (k k' v : string) (d : dict) :
  dict_getitem k (dict_setitem k' v d)
  = if decide (k' = k) then Some v else dict_getitem k d.
Proof.
  induction d as [|[k0 v0] d IH]; cbn.
  - destruct (String.eqb_spec k' k); by case_decide.
  - destruct (String.eqb_spec k0 k') as [->|Hne]; cbn.
    + destruct (String.eqb_spec k' k); by case_decide.
    + destruct (String.eqb_spec k0 k) as [->|Hne'].
      * by case_decide.
      * exact IH.
Qed.

Lemma mapping_from_getitem (d : dict) (chs : list Channel) (id : string) :
  dict_getitem id (mapping_from d chs)
  = match last_active id chs with
    | Some c => Some (channel_name c)
    | None => dict_getitem id d
    end.
Proof.
  revert d. induction chs as [|c chs IH]; intros d; [done|].
  rewrite mapping_from_cons, IH. unfold last_active, active. rewrite filter_cons.
  destruct (is_archived c); case_decide; try done.
  rewrite filter_cons. case_decide as Hid.
  - rewrite last_cons. destruct (last _); [done|].
    rewrite dict_getitem_setitem. by case_decide.
  - destruct (last _); [done|].
    rewrite dict_getitem_setitem. by case_decide.
Qed.

(** X8: what the mapping returned by [get_channel_ids] gives for an id is
    the name of the last listed channel with that id that is not
    archived: a later page overwrites the name of an earlier one, and an
    id that only archived channels carry has no entry. *)
Theorem mapping_holds_last_listed_name {L} (s s' : S) (pages : list Page)
    (fin : option ErrorResponse) (fuel : nat) (l : L) (tr : list Event) :
  listing s None pages fin s' →
  (rounds pages fin ≤ fuel)%nat →
  ∃ d st',
    get_channel_ids fuel (l, Build_World s tr) = (Ok d, st')
    ∧ ∀ id, dict_getitem id d = channel_name <$> last_active id (listed pages).
Proof.
  intros Hl Hfuel. eexists _, _. split.
  - by apply get_channel_ids_listing.
  - intros id. rewrite mapping_from_getitem. by destruct (last_active _ _).
Qed.

Lemma while_fetch_page_forever (P : S → str_or_none → Prop) :
  always_more_pages P →
  ∀ fuel l s tr,
    P s (cursor l) →
    ∃ l' w',
      while_true fuel fetch_page (l, Build_World s tr) = (OutOfFuel, (l', w'))
      ∧ list_requests (trace w') = (list_requests tr + fuel)%nat.
Proof.
  intros HP. induction fuel as [|fuel IH]; intros l s tr Hs.
  - eexists _, _. split; [reflexivity|]. cbn [trace]. lia.
  - destruct (HP _ _ Hs) as (p & s' & Hc & Ht & Hs').
    cbn [while_true]. unfold mbind at 1, M_bind at 1.
    rewrite (fetch_page_returns _ _ _ _ _ Hc), Ht.
    destruct (IH (turned l p) s'
                (tr ++ [Call (ConversationsList "public_channel,private_channel" 100
                                                (cursor l))])%list Hs')
      as (l' & w' & -> & Hn).
    eexists _, _. split; [reflexivity|].
    rewrite Hn, list_requests_app, list_requests_cons.
    cbn [is_list_request]. unfold list_requests at 2. cbn [filter list_filter length]. lia.
Qed.

(** X9: the pagination of [get_channel_ids] has no bound of its own: as
    long as every page comes with a cursor to follow, the loop sends one
    more request, so after any number of rounds the function has not
    returned and has sent that many requests. *)
Theorem pagination_follows_cursors_forever {L} (P : S → str_or_none → Prop)
    (s : S) (fuel : nat) (l : L) (tr : list Event) :
  always_more_pages P →
  P s None →
  ∃ w',
    get_channel_ids fuel (l, Build_World s tr) = (OutOfFuel, (l, w'))
    ∧ list_requests (trace w') = (list_requests tr + fuel)%nat.
Proof.
  intros HP Hs. unfold get_channel_ids, get_channel_ids_body. run.
  destruct (while_fetch_page_forever P HP fuel
              {| all_channels := []; public_channel_count := 0;
                 private_channel_count := 0; cursor := None |} s
              (tr ++ [Print "Fetching all non-archived channel IDs (including private channels)..."])%list
              Hs) as (l' & w' & -> & Hn).
  eexists. split; [reflexivity|].
  cbn [snd]. rewrite Hn, list_requests_app, list_requests_cons.
  cbn [is_list_request]. unfold list_requests at 2. cbn [filter list_filter length]. lia.
Qed.

End Listings.

Section Scans.
Context {S : Type} {client : WebClient S}.

Lemma for_each_app {L X} (xs ys : list X) (body : X → M S L unit) (st : L * World S) :
  for_each (xs ++ ys) body st
  = match for_each xs body st with
    | (Ok _, st') => for_each ys body st'
    | r => r
    end.
Proof.
  revert st. induction xs as [|x xs IH]; intros st; [done|].
  cbn [app for_each]. unfold mbind, M_bind.
  destruct (body x st) as [[[]|e|] st1]; [apply IH|done..].
Qed.

(** The local sets after the channels [ids] were tested against [ms]. *)
Lemma for_each_scanned fuel u1 u2 s ids ms s' :
  scanned s ids ms s' →
  ∀ l tr,
    (1 ≤ fuel)%nat →
    for_each ids (check_membership fuel u1 u2) (l, Build_World s tr)
    = (Ok tt,
       (fold_left (λ l cm, tested u1 u2 cm.1 cm.2 l) (zip ids ms) l,
        Build_World s'
          (tr ++ (ids ≫= λ channel, [Call (ConversationsMembers channel); Sleep 1])))).
Proof.
  induction 1 as [s|s c m s1 ids ms s' Hc _ IH]; intros l tr Hfuel.
  - cbn. by rewrite app_nil_r.
  - cbn [for_each]. unfold mbind at 1, M_bind at 1.
    destruct fuel as [|fuel]; [lia|].
    unfold check_membership at 1. cbn [while_true]. unfold mbind at 1, M_bind at 1.
    rewrite (query_members_returns _ _ _ _ _ _ _ _ Hc).
    unfold mret at 1, M_ret at 1. rewrite IH by done.
    cbn. by rewrite <-app_assoc.
Qed.

Lemma tested_all_sets u1 u2 (cms : list (string * list string)) (l : MemberLocals) :
  user_1_channels (fold_left (λ l cm, tested u1 u2 cm.1 cm.2 l) cms l)
  = list_to_set ((filter (λ cm, py_in u1 cm.2 = true) cms).*1) ∪ user_1_channels l
  ∧ user_2_channels (fold_left (λ l cm, tested u1 u2 cm.1 cm.2 l) cms l)
    = list_to_set ((filter (λ cm, py_in u2 cm.2 = true) cms).*1) ∪ user_2_channels l.
Proof.
  revert l. induction cms as [|[c m] cms IH]; intros l.
  - cbn [fold_left filter list_filter fmap list_fmap list_to_set].
    split; set_solver.
  - cbn [fold_left fst snd]. destruct (IH (tested u1 u2 c m l)) as [-> ->].
    rewrite !filter_cons. unfold tested. cbn [fst snd user_1_channels user_2_channels].
    split.
    + destruct (py_in u1 m); case_decide; try done; cbn [fmap list_fmap list_to_set fst];
        set_solver.
    + destruct (py_in u2 m); case_decide; try done; cbn [fmap list_fmap list_to_set fst];
        set_solver.
Qed.

(** What [get_users_channel_ids] does with the outcome of its loop. *)
Lemma get_users_channel_ids_of_scan {L} fuel u1 u2 ids (l0 : L) (s : S) tr r l' w' :
  for_each ids (check_membership fuel u1 u2)
    ({| user_1_channels := ∅; user_2_channels := ∅ |},
     Build_World s (tr ++ [Print "Fetching channel membership for both users..."]))
  = (r, (l', w')) →
  get_users_channel_ids fuel u1 u2 ids (l0, Build_World s tr)
  = (match r with
     | Ok _ => Ok (user_1_channels l', user_2_channels l')
     | Raised x => Raised x
     | OutOfFuel => OutOfFuel
     end, (l0, w')).
Proof.
  intros Hrun. unfold get_users_channel_ids, get_users_channel_ids_body, call.
  cbn [fst snd]. unfold mbind at 1, M_bind at 1.
  unfold print at 1, emit at 1. cbn [fst snd server trace].
  unfold mbind at 1, M_bind at 1. rewrite try_except_scan, Hrun.
  by destruct r as [[]|x|].
Qed.

Lemma get_users_channel_ids_scanned {L} (fuel : nat)
    (user_id_1 user_id_2 : str_or_none) (s s' : S) (ids : list string)
    (ms : list (list string)) (l0 : L) (tr : list Event) :
  scanned s ids ms s' →
  (1 ≤ fuel)%nat →
  get_users_channel_ids fuel user_id_1 user_id_2 ids (l0, Build_World s tr)
  = (Ok (members_in user_id_1 ids ms, members_in user_id_2 ids ms),
     (l0, Build_World s' (tr ++ scan_events ids))).
Proof.
  intros Hs Hfuel.
  erewrite get_users_channel_ids_of_scan; [|by apply for_each_scanned].
  destruct (tested_all_sets user_id_1 user_id_2 (zip ids ms)
              {| user_1_channels := ∅; user_2_channels := ∅ |}) as [-> ->].
  cbn [user_1_channels user_2_channels].
  rewrite !(right_id_L (∅ : gset string) (∪)).
  unfold members_in, scan_events. by rewrite <-app_assoc.
Qed.

(** X10: when every channel is answered at the first request,
    [get_users_channel_ids] asks for each channel of its input once, in the
    order of the input, pauses one second after each answer, and returns
    for each user exactly the channels whose member list holds the user
    id. *)
Theorem scan_collects_the_channels_of_each_user {L} (fuel : nat)
    (user_id_1 user_id_2 : str_or_none) (s s' : S) (ids : list string)
    (ms : list (list string)) (l0 : L) (tr : list Event) :
  scanned s ids ms s' →
  (1 ≤ fuel)%nat →
  get_users_channel_ids fuel user_id_1 user_id_2 ids (l0, Build_World s tr)
  = (Ok (members_in user_id_1 ids ms, members_in user_id_2 ids ms),
     (l0, Build_World s' (tr ++ scan_events ids)))
  ∧ members_requests (scan_events ids) = length ids
  ∧ sleeps (scan_events ids) = replicate (length ids) 1%Z
  ∧ ∀ (user_id : str_or_none) (channel : string),
      channel ∈ members_in user_id ids ms
      ↔ ∃ i members, ids !! i = Some channel ∧ ms !! i = Some members
                     ∧ py_in user_id members = true.
Proof.
  intros Hs Hfuel. split; [|split; [|split]].
  - by apply get_users_channel_ids_scanned.
  - unfold scan_events. rewrite members_requests_cons. cbn [is_members_request].
    clear. induction ids as [|c ids IH]; [done|].
    rewrite bind_cons, members_requests_app, !members_requests_cons.
    cbn [is_members_request length]. unfold members_requests at 1.
    cbn [filter list_filter length]. cbn [Nat.add] in *. lia.
  - unfold scan_events, sleeps. cbn [omap list_omap].
    clear. induction ids as [|c ids IH]; [done|].
    rewrite bind_cons, omap_app. cbn [omap list_omap app length replicate].
    by rewrite IH.
  - intros user_id channel. unfold members_in.
    rewrite elem_of_list_to_set, list_elem_of_fmap. split.
    + intros ([c m] & -> & [Hin Hzip]%list_elem_of_filter).
      apply list_elem_of_lookup in Hzip as [i Hi].
      apply lookup_zip_with_Some in Hi as (c' & m' & [= <- <-] & Hc & Hm).
      by exists i, m.
    + intros (i & m & Hc & Hm & Hin). exists (channel, m). split; [done|].
      apply list_elem_of_filter. split; [done|].
      apply list_elem_of_lookup. exists i.
      apply lookup_zip_with_Some. by exists channel, m.
Qed.

(** X11: an exception of a membership request that is not a
    [SlackApiError] ends [get_users_channel_ids] at once: the sets
    collected from the channels before are not returned and the channels
    after are not asked for. *)
Theorem transport_failure_of_scan_escapes {L} (fuel : nat)
    (user_id_1 user_id_2 : str_or_none) (s s1 s2 : S) (before : list string)
    (ms : list (list string)) (channel : string) (after : list string) (x : exn)
    (l0 : L) (tr : list Event) :
  scanned s before ms s1 →
  conversations_members channel s1 = (Raises x, s2) →
  uncaught x →
  (1 ≤ fuel)%nat →
  get_users_channel_ids fuel user_id_1 user_id_2 (before ++ channel :: after)
                        (l0, Build_World s tr)
  = (Raised x,
     (l0, Build_World s2
            (tr ++ scan_events before ++ [Call (ConversationsMembers channel)]))).
Proof.
  intros Hs Hc Hx Hfuel.
  erewrite get_users_channel_ids_of_scan; cycle 1.
  { rewrite for_each_app, (for_each_scanned _ _ _ _ _ _ _ Hs) by done.
    cbn [for_each]. unfold mbind at 1, M_bind at 1.
    destruct fuel as [|fuel]; [lia|].
    unfold check_membership at 1. cbn [while_true]. unfold mbind at 1, M_bind at 1.
    rewrite (query_members_raises _ _ _ _ _ _ _ _ Hc Hx). reflexivity. }
  unfold scan_events. cbn [app]. by rewrite <-!app_assoc.
Qed.

(** X12: a rate-limit error whose [Retry-After] header is an ASCII text
    that [int] cannot read ends [get_users_channel_ids] with a
    [ValueError], raised before the retry line is printed: none of the two
    [except SlackApiError] clauses catches it, the channel is not retried
    and the other channels are not asked for. *)
Theorem unreadable_retry_after_ends_the_scan {L} (fuel : nat)
    (user_id_1 user_id_2 : str_or_none) (s s1 s2 : S) (before : list string)
    (ms : list (list string)) (channel : string) (after : list string)
    (e : ErrorResponse) (text : string) (l0 : L) (tr : list Event) :
  scanned s before ms s1 →
  conversations_members channel s1 = (Raises (SlackApiError e), s2) →
  error e = "ratelimited" →
  headers e !! "Retry-After" = Some text →
  ascii_only text →
  py_int text = None →
  (1 ≤ fuel)%nat →
  get_users_channel_ids fuel user_id_1 user_id_2 (before ++ channel :: after)
                        (l0, Build_World s tr)
  = (Raised ValueError,
     (l0, Build_World s2
            (tr ++ scan_events before ++ [Call (ConversationsMembers channel)]))).
Proof.
  intros Hs Hc He Hheader _ Hint Hfuel.
  assert (retry_after_header e = None) as Hh.
  { unfold retry_after_header. by rewrite Hheader. }
  assert (∀ l w, server w = s1 →
            query_members user_id_1 user_id_2 channel (l, w)
            = (Raised ValueError,
               (l, Build_World s2 (trace w ++ [Call (ConversationsMembers channel)]))))
    as Hq.
  { intros l w <-. unfold query_members. run.
    by rewrite Hc, He, String.eqb_refl, Hh. }
  erewrite get_users_channel_ids_of_scan; cycle 1.
  { rewrite for_each_app, (for_each_scanned _ _ _ _ _ _ _ Hs) by done.
    cbn [for_each]. unfold mbind at 1, M_bind at 1.
    destruct fuel as [|fuel]; [lia|].
    unfold check_membership at 1. cbn [while_true]. unfold mbind at 1, M_bind at 1.
    rewrite Hq by done. reflexivity. }
  unfold scan_events. cbn [app trace]. by rewrite <-!app_assoc.
Qed.

(** X13: a rate-limit error whose [Retry-After] header holds a negative
    integer, not below [- max_sleep], ends [get_users_channel_ids] with the [ValueError] of
    [time.sleep], after the line "Rate-limited. Retrying after ...
    seconds..." was printed with the negative number. *)
Theorem negative_retry_after_ends_the_scan {L} (fuel : nat)
    (user_id_1 user_id_2 : str_or_none) (s s1 s2 : S) (before : list string)
    (ms : list (list string)) (channel : string) (after : list string)
    (e : ErrorResponse) (text : string) (h : Z) (l0 : L) (tr : list Event) :
  scanned s before ms s1 →
  conversations_members channel s1 = (Raises (SlackApiError e), s2) →
  error e = "ratelimited" →
  headers e !! "Retry-After" = Some text →
  py_int text = Some h →
  (- max_sleep ≤ h < 0)%Z →
  (1 ≤ fuel)%nat →
  get_users_channel_ids fuel user_id_1 user_id_2 (before ++ channel :: after)
                        (l0, Build_World s tr)
  = (Raised ValueError,
     (l0, Build_World s2
            (tr ++ scan_events before
                ++ [Call (ConversationsMembers channel);
                    Print ("Rate-limited. Retrying after " ++ pretty h ++ " seconds...")]))).
Proof.
  intros Hs Hc He Hheader Hint Hneg Hfuel.
  assert (retry_after_header e = Some h) as Hh.
  { unfold retry_after_header. by rewrite Hheader. }
  assert (∀ l w, server w = s1 →
            query_members user_id_1 user_id_2 channel (l, w)
            = (Raised ValueError,
               (l, Build_World s2
                     (trace w ++ [Call (ConversationsMembers channel);
                                  Print ("Rate-limited. Retrying after " ++ pretty h
                                         ++ " seconds...")]))))
    as Hq.
  { intros l w <-. unfold query_members. run.
    rewrite Hc, He, String.eqb_refl, Hh.
    destruct (Z.ltb_spec h (- max_sleep)) as [?|_]; [lia|].
    destruct (Z.ltb_spec max_sleep h) as [?|_]; [unfold max_sleep in *; lia|].
    cbn [orb]. destruct (Z.ltb_spec h 0) as [_|?]; [|lia].
    reduce. by rewrite <-!app_assoc. }
  erewrite get_users_channel_ids_of_scan; cycle 1.
  { rewrite for_each_app, (for_each_scanned _ _ _ _ _ _ _ Hs) by done.
    cbn [for_each]. unfold mbind at 1, M_bind at 1.
    destruct fuel as [|fuel]; [lia|].
    unfold check_membership at 1. cbn [while_true]. unfold mbind at 1, M_bind at 1.
    rewrite Hq by done. reflexivity. }
  unfold scan_events. cbn [app trace]. by rewrite <-!app_assoc.
Qed.



End Scans.

Section WholeRuns.
Context {S : Type} {client : WebClient S}.

Lemma channel_names_missing {L} (d : dict) (ids : list string) (st : L * World S) :
  Exists (λ channel_id, channel_id ∉ dict_keys d) ids →
  channel_names d ids st = (Raised KeyError, st).
Proof.
  induction ids as [|c ids IH]; intros Hex; [by apply Exists_nil in Hex|].
  cbn [channel_names]. destruct (dict_getitem c d) as [name|] eqn:Hc; [|done].
  apply Exists_cons in Hex as [Hmiss|Hex].
  - destruct Hmiss. apply dict_getitem_is_Some. by eexists.
  - unfold mbind, M_bind. by rewrite IH.
Qed.

(** X15: a block of the report whose difference holds an id that is not a
    key of the mapping prints its heading and then ends with a
    [KeyError]: the names are all looked up before the first of them is
    printed, so no name line appears. *)
Theorem report_block_with_unknown_id_raises_KeyError {L} (user_name : str_or_none)
    (d : dict) (only : gset string) (unknown : string) (l : L) (w : World S) :
  unknown ∈ only →
  unknown ∉ dict_keys d →
  report_exclusive user_name d only (l, w)
  = (Raised KeyError,
     (l, Build_World (server w)
           (trace w ++ [Print (NL ++ "Channels only in " ++ fmt user_name ++ ":")]))).
Proof.
  intros Hin Hmiss. unfold report_exclusive.
  case_bool_decide as Hempty; [set_solver|]. cbn [negb].
  cbv [mbind M_bind]. unfold print at 1, emit at 1. cbn [fst snd server trace].
  rewrite channel_names_missing; [done|].
  apply Exists_exists. exists unknown. split; [|done]. by apply elem_of_elements.
Qed.

Lemma report_within {L} (user_name_1 user_name_2 : str_or_none) (d : dict)
    (set1 set2 : gset string) (l : L) (w : World S) :
  (∀ channel_id, channel_id ∈ set1 ∨ channel_id ∈ set2 → channel_id ∈ dict_keys d) →
  report user_name_1 user_name_2 d set1 set2 (l, w)
  = (Ok tt,
     (l, Build_World (server w)
           (trace w ++ report_events user_name_1 user_name_2 d set1 set2))).
Proof.
  intros Hkeys. unfold report, report_events.
  cbv [mbind M_bind]. unfold print, emit. cbn [fst snd server trace].
  rewrite report_exclusive_present.
  - rewrite report_exclusive_present.
    + cbn [server trace]. by rewrite <-!app_assoc.
    + unfold only_in_user_2. set_solver.
  - unfold only_in_user_1. set_solver.
Qed.

Lemma members_in_within (user_id : str_or_none) (ids : list string)
    (ms : list (list string)) (channel : string) :
  channel ∈ members_in user_id ids ms → channel ∈ ids.
Proof.
  unfold members_in. rewrite elem_of_list_to_set, list_elem_of_fmap.
  intros ([c m] & -> & [_ Hzip]%list_elem_of_filter).
  apply list_elem_of_lookup in Hzip as [i Hi].
  apply lookup_zip_with_Some in Hi as (c' & m' & [= <- <-] & Hc & Hm).
  by apply list_elem_of_lookup_2 in Hc.
Qed.

(** A whole comparison on a remote side that answers both lookups, lists
    its pages, possibly ending with an API error, and answers every
    membership request at once. *)
Lemma compare_user_channels_run (fuel : nat) (email_1 email_2 : string)
    (u1 u2 : User) (pages : list Page) (fin : option ErrorResponse)
    (ms : list (list string)) (s s1 s2 s3 s4 : S) (tr : list Event) :
  users_lookupByEmail email_1 s = (Returns u1, s1) →
  users_lookupByEmail email_2 s1 = (Returns u2, s2) →
  user_id u1 ≠ "" → user_id u2 ≠ "" →
  listing s2 None pages fin s3 →
  scanned s3 (dict_keys (mapping_from [] (listed pages))) ms s4 →
  (rounds pages fin ≤ fuel)%nat → (1 ≤ fuel)%nat →
  let d := mapping_from [] (listed pages) in
  let set1 := members_in (Some (user_id u1)) (dict_keys d) ms in
  let set2 := members_in (Some (user_id u2)) (dict_keys d) ms in
  compare_user_channels fuel email_1 email_2 (tt, Build_World s tr)
  = (Ok tt,
     (tt, Build_World s4
            (tr ++ [Print ("Comparing channels for " ++ email_1 ++ " and " ++ email_2
                           ++ "..." ++ NL)]
                ++ lookup_events email_1 (inl u1)
                ++ lookup_events email_2 (inl u2)
                ++ enumeration_events pages fin
                ++ scan_events (dict_keys d)
                ++ report_events (Some (real_name u1)) (Some (real_name u2)) d set1 set2))).
Proof.
  intros Hr1 Hr2 Hid1 Hid2 Hl Hs Hrounds Hfuel d set1 set2.
  unfold compare_user_channels.
  cbv [mbind M_bind]. unfold print at 1, emit at 1. cbn [fst snd server trace].
  rewrite (get_user_id_by_email_replied _ (inl u1) _ _ _ Hr1). cbv beta iota.
  rewrite (get_user_id_by_email_replied _ (inl u2) _ _ _ Hr2). cbv beta iota.
  assert (negb (truthy (Some (user_id u1))) || negb (truthy (Some (user_id u2)))
          = false) as ->.
  { cbn [truthy]. apply String.eqb_neq in Hid1 as ->, Hid2 as ->. done. }
  rewrite (get_channel_ids_listing _ _ _ _ _ _ _ Hl Hrounds). cbv beta iota.
  rewrite (get_users_channel_ids_scanned fuel _ _ _ _ _ _ _ _ Hs Hfuel). cbv beta iota.
  rewrite report_within.
  - cbn [server trace]. fold d set1 set2. unfold enumeration_events.
    rewrite <-!app_assoc. reflexivity.
  - intros c [Hc|Hc]; by apply members_in_within in Hc.
Qed.

(** X16: how the steps of [compare_user_channels] compose on a run without
    error: both lookups give a non-empty id, the listing ends, every
    channel of the mapping is asked for once, in the order of the
    mapping, and the report prints the sizes of the two sets of channels
    whose members hold the id of the user, then for each user the sorted
    names of the channels in its set and not in the other. *)
Theorem comparison_reports_the_two_differences (fuel : nat) (email_1 email_2 : string)
    (u1 u2 : User) (pages : list Page) (ms : list (list string))
    (s s1 s2 s3 s4 : S) (tr : list Event) :
  users_lookupByEmail email_1 s = (Returns u1, s1) →
  users_lookupByEmail email_2 s1 = (Returns u2, s2) →
  user_id u1 ≠ "" → user_id u2 ≠ "" →
  listing s2 None pages None s3 →
  scanned s3 (dict_keys (mapping_from [] (listed pages))) ms s4 →
  (length pages ≤ fuel)%nat →
  let d := mapping_from [] (listed pages) in
  let set1 := members_in (Some (user_id u1)) (dict_keys d) ms in
  let set2 := members_in (Some (user_id u2)) (dict_keys d) ms in
  compare_user_channels fuel email_1 email_2 (tt, Build_World s tr)
  = (Ok tt,
     (tt, Build_World s4
            (tr ++ [Print ("Comparing channels for " ++ email_1 ++ " and " ++ email_2
                           ++ "..." ++ NL)]
                ++ lookup_events email_1 (inl u1)
                ++ lookup_events email_2 (inl u2)
                ++ enumeration_events pages None
                ++ scan_events (dict_keys d)
                ++ report_events (Some (real_name u1)) (Some (real_name u2)) d set1 set2))).
Proof.
  intros Hr1 Hr2 Hid1 Hid2 Hl Hs Hfuel.
  apply (compare_user_channels_run fuel email_1 email_2 u1 u2 pages None ms
           s s1 s2 s3 s4 tr); try done.
  - unfold rounds. lia.
  - inversion Hl; subst; cbn [length] in Hfuel; lia.
Qed.

(** X17: when the first listing request fails with an API error, the
    comparison does not stop: it goes on with an empty mapping, asks for
    the members of no channel, and reports that both users are part of 0
    channels and that no channels are exclusive to either of them. *)
Theorem failed_enumeration_reports_no_difference (fuel : nat) (email_1 email_2 : string)
    (u1 u2 : User) (e : ErrorResponse) (s s1 s2 s3 : S) (tr : list Event) :
  users_lookupByEmail email_1 s = (Returns u1, s1) →
  users_lookupByEmail email_2 s1 = (Returns u2, s2) →
  user_id u1 ≠ "" → user_id u2 ≠ "" →
  conversations_list "public_channel,private_channel" 100 None s2
  = (Raises (SlackApiError e), s3) →
  (1 ≤ fuel)%nat →
  compare_user_channels fuel email_1 email_2 (tt, Build_World s tr)
  = (Ok tt,
     (tt, Build_World s3
            (tr ++ [Print ("Comparing channels for " ++ email_1 ++ " and " ++ email_2
                           ++ "..." ++ NL)]
                ++ lookup_events email_1 (inl u1)
                ++ lookup_events email_2 (inl u2)
                ++ [Print "Fetching all non-archived channel IDs (including private channels)...";
                    Call (ConversationsList "public_channel,private_channel" 100 None);
                    Print ("Error fetching channels: " ++ error e);
                    Print "Total channels found: 0";
                    Print "Public channels: 0";
                    Print "Private channels: 0";
                    Print "Fetching channel membership for both users...";
                    Print (real_name u1 ++ " is part of 0 channels.");
                    Print (real_name u2 ++ " is part of 0 channels.");
                    Print (NL ++ "Comparing channel memberships...");
                    Print (NL ++ "No channels are exclusive to " ++ real_name u1 ++ ".");
                    Print (NL ++ "No channels are exclusive to " ++ real_name u2 ++ ".")]))).
Proof.
  intros Hr1 Hr2 Hid1 Hid2 Hc Hfuel.
  rewrite (compare_user_channels_run fuel email_1 email_2 u1 u2 [] (Some e) []
             s s1 s2 s3 s3 tr Hr1 Hr2 Hid1 Hid2).
  - reflexivity.
  - by apply listing_error.
  - apply scanned_nil.
  - unfold rounds. cbn. lia.
  - done.
Qed.

End WholeRuns.

(** ** The properties on the scripted client *)

(** How a script serves its pages. *)
Lemma serving_last (p : Page) (cur : str_or_none) :
  truthy (next_cursor p) = false →
  listing (serving [p]) cur [p] None (serving []).
Proof. intros Hp. by apply listing_last. Qed.

Lemma serving_next (p : Page) (pages : list Page) (cur : str_or_none) fin s' :
  truthy (next_cursor p) = true →
  listing (serving pages) (next_cursor p) pages fin s' →
  listing (serving (p :: pages)) cur (p :: pages) fin s'.
Proof. intros Hp Hl. by eapply listing_next. Qed.

(** C3, as stated, fails: of two pages of which only the last carries a
    null cursor, the first carrying the empty string, the pagination loop
    requests the first only, whatever the number of rounds it is given,
    and the enumerator returns the channel of the first page alone. *)
Lemma empty_cursor_ends_pagination :
  only_last_null early_end_pages = true
  ∧ ∀ fuel : nat,
      list_requests (trace (get_channel_ids fuel (start (serving early_end_pages))).2.2)
      ≠ length early_end_pages
      ∧ (fuel ≠ 0%nat →
         (get_channel_ids fuel (start (serving early_end_pages))).1
         = Ok [("C1", "general")]).
Proof.
  split; [done|]. intros [|fuel].
  - split; [by vm_compute|done].
  - unfold start.
    erewrite (get_channel_ids_listing (serving early_end_pages)
                [ {| channels := [public_channel "C1" "general"];
                     next_cursor := Some "" |} ] None).
    + split; [by vm_compute|done].
    + by apply listing_last.
    + unfold rounds. cbn. lia.
Qed.

(** Three pages of 100, 100 and 50 channels: three requests, 250 entries. *)
Lemma pagination_three_pages_250 :
  ∃ d,
    get_channel_ids 3 (start (serving three_pages))
    = (Ok d,
       (tt, Build_World (serving [])
              ([Print "Fetching all non-archived channel IDs (including private channels)..."]
                 ++ page_calls None three_pages
                 ++ totals d 250 0)))
    ∧ list_requests (page_calls None three_pages) = 3%nat
    ∧ NoDup (dict_keys d)
    ∧ length d = 250%nat.
Proof.
  exists (mapping_from [] (listed three_pages)).
  destruct (pagination_consumes_every_page (L := unit)
              (serving three_pages) (serving []) three_pages 3 tt [])
    as (Hrun & Hreq & Hnd & H250).
  - repeat (apply serving_next; [reflexivity|]). by apply serving_last.
  - cbn. lia.
  - split; [exact Hrun|]. split; [exact Hreq|]. split; [exact Hnd|].
    apply H250.
    + reflexivity.
    + apply (bool_decide_unpack _). by vm_compute.
    + apply (bool_decide_unpack _). by vm_compute.
Defined.

(** Five active and two archived channels on a page: five entries. *)
Lemma archived_channels_excluded_seven :
  ∃ d st',
    get_channel_ids 1 (start (serving seven_channels)) = (Ok d, st')
    ∧ (∀ id name, (id, name) ∈ d →
         ∃ c, c ∈ listed seven_channels ∧ is_archived c = false
              ∧ channel_id c = id ∧ channel_name c = name)
    ∧ ("C2" ∉ dict_keys d)
    ∧ ("C5" ∉ dict_keys d)
    ∧ length d = 5%nat.
Proof.
  destruct (archived_channels_excluded (L := unit)
              (serving seven_channels) (serving []) seven_channels None 1 tt [])
    as (d & st' & Hrun & Hentries & Hdistinct).
  - by apply serving_last.
  - cbn. lia.
  - destruct Hdistinct as [Harchived Hfive].
    { apply (bool_decide_unpack _). by vm_compute. }
    exists d, st'. split; [exact Hrun|]. split; [exact Hentries|].
    split; [|split].
    + apply (Harchived (archived_channel "C2" "old-news")); [|done].
      by apply (list_elem_of_lookup_2 _ 1).
    + apply (Harchived (archived_channel "C5" "2019-offsite")); [|done].
      by apply (list_elem_of_lookup_2 _ 4).
    + by apply Hfive.
Defined.

(** A page, then an API error: the channels of the page are returned. *)
Lemma enumeration_error_after_one_page :
  get_channel_ids 2 (start broken_listing)
  = (Ok [("C1", "general"); ("C2", "board")],
     (tt, Build_World (serving [])
            [Print "Fetching all non-archived channel IDs (including private channels)...";
             Call (ConversationsList "public_channel,private_channel" 100 None);
             Call (ConversationsList "public_channel,private_channel" 100 (Some "page-2"));
             Print "Error fetching channels: internal_error";
             Print "Total channels found: 2";
             Print "Public channels: 1";
             Print "Private channels: 1"]))
  ∧ list_requests
      [Print "Fetching all non-archived channel IDs (including private channels)...";
       Call (ConversationsList "public_channel,private_channel" 100 None);
       Call (ConversationsList "public_channel,private_channel" 100 (Some "page-2"));
       Print "Error fetching channels: internal_error";
       Print "Total channels found: 2";
       Print "Public channels: 1";
       Print "Private channels: 1"] = 2%nat.
Proof.
  apply (enumeration_error_returns_partial_mapping (L := unit)
           broken_listing (serving [])
           [ {| channels := [public_channel "C1" "general"; private_channel "C2" "board"];
                next_cursor := Some "page-2" |} ]
           (api_error "internal_error") 2 tt []).
  - eapply listing_next; [reflexivity|reflexivity|]. by apply listing_error.
  - cbn. lia.
Defined.

(** Three public and two private active channels: a total of five. *)
Lemma public_plus_private_of_seven :
  ∃ d public private before,
    get_channel_ids 1 (start (serving seven_channels))
    = (Ok d, (tt, Build_World (serving []) ([] ++ before ++ totals d public private)))
    ∧ public = 3%nat
    ∧ private = 2%nat
    ∧ (public + private)%nat = length d.
Proof.
  apply (public_plus_private_is_total (L := unit)
           (serving seven_channels) (serving []) seven_channels 1 tt []).
  - by apply serving_last.
  - apply (bool_decide_unpack _). by vm_compute.
  - cbn. lia.
Defined.




(** The second email is unknown: the comparison stops after the lookups. *)
Lemma unknown_second_user_aborts :
  compare_user_channels 0 "ann@example.com" "bob@example.com"
                        (start unknown_second_user)
  = (Ok tt,
     (tt, Build_World (serving [])
            [Print ("Comparing channels for ann@example.com and bob@example.com..." ++ NL);
             Print "Looking up user ID for email: ann@example.com";
             Call (UsersLookupByEmail "ann@example.com");
             Print "User ID for ann@example.com: U1";
             Print "Looking up user ID for email: bob@example.com";
             Call (UsersLookupByEmail "bob@example.com");
             Print "Error fetching user ID for email bob@example.com: users_not_found";
             Print "Unable to retrieve user IDs for comparison."])).
Proof.
  apply (failed_lookup_aborts_comparison 0 "ann@example.com" "bob@example.com"
           (inl {| user_id := "U1"; real_name := "Ann" |})
           (inr (api_error "users_not_found"))
           unknown_second_user
           {| lookup_replies := [Raises (SlackApiError (api_error "users_not_found"))];
              list_replies := []; members_replies := [] |}
           (serving []) []).
  - reflexivity.
  - reflexivity.
  - right. by eexists.
Defined.

(** A scan of three channels, the last one failing: the sets hold listed ids
    and the report ends normally. *)
Lemma scanned_sets_within_keys :
  (∀ channel_id,
     channel_id ∈ ({["C2"]} ∪ ({["C1"]} ∪ ∅) : gset string)
     ∨ channel_id ∈ ({["C1"]} ∪ ∅ : gset string) →
     channel_id ∈ ["C1"; "C2"; "C3"])
  ∧ ∃ st1,
      report (L := unit) (Some "Ann") (Some "Bob")
             [("C1", "general"); ("C2", "random"); ("C3", "help")]
             ({["C2"]} ∪ ({["C1"]} ∪ ∅)) ({["C1"]} ∪ ∅)
             (start (answering []))
      = (Ok tt, st1).
Proof.
  destruct (membership_sets_within_input (L := unit) 1 (Some "U1") (Some "U2")
              ["C1"; "C2"; "C3"] (start three_channels_scanned)
              (tt, Build_World (answering [])
                     [Print "Fetching channel membership for both users...";
                      Call (ConversationsMembers "C1"); Sleep 1;
                      Call (ConversationsMembers "C2"); Sleep 1;
                      Call (ConversationsMembers "C3");
                      Print "Error fetching channel members for channel C3: fetch_members_failed"])
              ({["C2"]} ∪ ({["C1"]} ∪ ∅)) ({["C1"]} ∪ ∅))
    as [Hin Hreport].
  - reflexivity.
  - split.
    + exact Hin.
    + destruct (Hreport [("C1", "general"); ("C2", "random"); ("C3", "help")] eq_refl)
        as [_ Hends].
      apply Hends.
Defined.

(** Ann is in one channel, which Bob is in too, and Bob in three more: the
    report has no channel for Ann and Bob's three in ascending order. *)
Lemma ann_within_bob_report :
  compare_user_channels 1 "ann@example.com" "bob@example.com" (start ann_within_bob)
  = (Ok tt,
     (tt, Build_World (serving [])
       [Print ("Comparing channels for ann@example.com and bob@example.com..." ++ NL);
        Print "Looking up user ID for email: ann@example.com";
        Call (UsersLookupByEmail "ann@example.com");
        Print "User ID for ann@example.com: U1";
        Print "Looking up user ID for email: bob@example.com";
        Call (UsersLookupByEmail "bob@example.com");
        Print "User ID for bob@example.com: U2";
        Print "Fetching all non-archived channel IDs (including private channels)...";
        Call (ConversationsList "public_channel,private_channel" 100 None);
        Print "Total channels found: 4";
        Print "Public channels: 4";
        Print "Private channels: 0";
        Print "Fetching channel membership for both users...";
        Call (ConversationsMembers "C1"); Sleep 1;
        Call (ConversationsMembers "C2"); Sleep 1;
        Call (ConversationsMembers "C3"); Sleep 1;
        Call (ConversationsMembers "C4"); Sleep 1;
        Print "Ann is part of 1 channels.";
        Print "Bob is part of 4 channels.";
        Print (NL ++ "Comparing channel memberships...");
        Print (NL ++ "No channels are exclusive to Ann.");
        Print (NL ++ "Channels only in Bob:");
        Print "- Alpha";
        Print "- Zeta";
        Print "- mid"])).
Proof.
  edestruct (report_of_exclusive_channels (client := scripted)
               1 "ann@example.com" "bob@example.com"
               {| user_id := "U1"; real_name := "Ann" |}
               {| user_id := "U2"; real_name := "Bob" |})
    as [Hrun _]; cycle 6.
  - etrans; [exact Hrun|]. by vm_compute.
  - reflexivity.
  - reflexivity.
  - discriminate.
  - discriminate.
  - vm_compute. reflexivity.
  - vm_compute. reflexivity.
Defined.

(** A whole run against [sample_run]. *)
Example compare_sample_run :
  compare_user_channels 5 "ann@example.com" "bob@example.com" (start sample_run)
  = (Ok tt,
     (tt, Build_World (serving [])
       [Print ("Comparing channels for ann@example.com and bob@example.com..." ++ NL);
        Print "Looking up user ID for email: ann@example.com";
        Call (UsersLookupByEmail "ann@example.com");
        Print "User ID for ann@example.com: U1";
        Print "Looking up user ID for email: bob@example.com";
        Call (UsersLookupByEmail "bob@example.com");
        Print "User ID for bob@example.com: U2";
        Print "Fetching all non-archived channel IDs (including private channels)...";
        Call (ConversationsList "public_channel,private_channel" 100 None);
        Call (ConversationsList "public_channel,private_channel" 100 (Some "page-2"));
        Print "Total channels found: 4";
        Print "Public channels: 3";
        Print "Private channels: 1";
        Print "Fetching channel membership for both users...";
        Call (ConversationsMembers "C1"); Sleep 1;
        Call (ConversationsMembers "C2");
        Print "Rate-limited. Retrying after 3 seconds..."; Sleep 3;
        Call (ConversationsMembers "C2"); Sleep 1;
        Call (ConversationsMembers "C3"); Sleep 1;
        Call (ConversationsMembers "C4");
        Print "Error fetching channel members for channel C4: channel_not_found";
        Print "Ann is part of 3 channels.";
        Print "Bob is part of 1 channels.";
        Print (NL ++ "Comparing channel memberships...");
        Print (NL ++ "Channels only in Ann:");
        Print "- Zeta";
        Print "- mid";
        Print (NL ++ "No channels are exclusive to Bob.")])).
Proof. by vm_compute. Qed.

(** [int] on the strings a [Retry-After] header may hold. *)
Example py_int_samples :
  py_int "30" = Some 30%Z ∧ py_int " 1_000 " = Some 1000%Z ∧ py_int "-5" = Some (-5)%Z
  ∧ py_int "" = None ∧ py_int "soon" = None ∧ py_int "1.5" = None
  ∧ py_int (String (ascii_of_nat 31) "5") = None
  ∧ py_int (String (ascii_of_nat 12) "5") = Some 5%Z.
Proof. by vm_compute. Qed.

(** ** The further properties on test doubles *)

(** An empty id for the first user: the comparison stops. *)
Lemma ghost_user_aborts :
  compare_user_channels 3 "ghost@example.com" "bob@example.com"
                        (tt, Build_World ghost_then_bob [])
  = (Ok tt,
     (tt, Build_World (serving [])
            [Print ("Comparing channels for ghost@example.com and bob@example.com..." ++ NL);
             Print "Looking up user ID for email: ghost@example.com";
             Call (UsersLookupByEmail "ghost@example.com");
             Print "User ID for ghost@example.com: ";
             Print "Looking up user ID for email: bob@example.com";
             Call (UsersLookupByEmail "bob@example.com");
             Print "User ID for bob@example.com: U2";
             Print "Unable to retrieve user IDs for comparison."])).
Proof.
  apply (empty_user_id_aborts_comparison 3 "ghost@example.com" "bob@example.com"
           {| user_id := ""; real_name := "Ghost" |}
           {| user_id := "U2"; real_name := "Bob" |}
           ghost_then_bob
           {| lookup_replies := [Returns {| user_id := "U2"; real_name := "Bob" |}];
              list_replies := []; members_replies := [] |}
           (serving []) []).
  - reflexivity.
  - reflexivity.
  - by left.
Defined.

(** No reply to the first lookup: the failure of the connection escapes. *)
Lemma lost_connection_escapes_lookup :
  compare_user_channels 3 "ann@example.com" "bob@example.com"
                        (tt, Build_World (serving []) [])
  = (Raised (OtherError "connection lost"),
     (tt, Build_World (serving [])
            [Print ("Comparing channels for ann@example.com and bob@example.com..." ++ NL);
             Print "Looking up user ID for email: ann@example.com";
             Call (UsersLookupByEmail "ann@example.com")])).
Proof.
  apply (transport_failure_of_lookup_escapes 3 "ann@example.com" "bob@example.com"
           (OtherError "connection lost") (serving []) (serving []) []).
  - reflexivity.
  - by intros e.
Defined.

(** A page, then no reply: the failure escapes [get_channel_ids]. *)
Lemma lost_connection_escapes_listing :
  get_channel_ids 2 (tt, Build_World (serving [first_page]) [])
  = (Raised (OtherError "connection lost"),
     (tt, Build_World (serving [])
            [Print "Fetching all non-archived channel IDs (including private channels)...";
             Call (ConversationsList "public_channel,private_channel" 100 None);
             Call (ConversationsList "public_channel,private_channel" 100 (Some "page-2"))])).
Proof.
  apply (transport_failure_of_listing_escapes (L := unit)
           (serving [first_page]) (serving []) [first_page]
           (OtherError "connection lost") 2 tt []).
  - eapply pages_then_page; [reflexivity|reflexivity|]. by apply pages_then_reply.
  - by intros e.
  - cbn. lia.
Defined.

(** An id listed twice: two channels counted, one entry. *)
Lemma repeated_id_counted_twice :
  ∃ d public private before,
    get_channel_ids 1 (tt, Build_World (serving [page_with_repeated_id]) [])
    = (Ok d, (tt, Build_World (serving []) ([] ++ before ++ totals d public private)))
    ∧ (public + private)%nat = 2%nat
    ∧ length d = 1%nat
    ∧ (length d ≤ public + private)%nat.
Proof.
  destruct (counts_cover_every_active_channel (L := unit)
              (serving [page_with_repeated_id]) (serving [])
              [page_with_repeated_id] None 1 tt [])
    as (d & public & private & before & Hrun & Hsum & Hlen & Hle).
  - by apply serving_last.
  - cbn. lia.
  - exists d, public, private, before.
    split; [exact Hrun|]. split; [exact Hsum|]. split; [|exact Hle].
    rewrite Hlen. by vm_compute.
Defined.

(** An id listed twice: the later name stays; an archived id has no entry. *)
Lemma repeated_id_keeps_last_name :
  ∃ d st',
    get_channel_ids 1 (tt, Build_World (serving [page_with_repeated_id]) [])
    = (Ok d, st')
    ∧ dict_getitem "C1" d = Some "general-2"
    ∧ dict_getitem "C2" d = None.
Proof.
  destruct (mapping_holds_last_listed_name (L := unit)
              (serving [page_with_repeated_id]) (serving [])
              [page_with_repeated_id] None 1 tt [])
    as (d & st' & Hrun & Hget).
  - by apply serving_last.
  - cbn. lia.
  - exists d, st'. split; [exact Hrun|]. split; apply Hget.
Defined.

(** A remote side that always has one more page: seven rounds, seven
    requests, no result. *)
Lemma relentless_listing_never_ends :
  ∃ w',
    get_channel_ids (client := relentless) 7 (tt, Build_World tt [])
    = (OutOfFuel, (tt, w'))
    ∧ list_requests (trace w') = (list_requests [] + 7)%nat.
Proof.
  apply (pagination_follows_cursors_forever (client := relentless) (L := unit)
           (λ _ _, True) tt 7 tt []).
  - intros s cur _. by eexists _, _.
  - exact I.
Defined.

(** Three channels answered at once. *)
Lemma three_channels_collected :
  get_users_channel_ids 1 (Some "U1") (Some "U2") ["C1"; "C2"; "C3"]
    (tt, Build_World (answering [Returns ["U1"; "U2"]; Returns ["U1"]; Returns []]) [])
  = (Ok (list_to_set ["C1"; "C2"], list_to_set ["C1"]),
     (tt, Build_World (answering [])
            [Print "Fetching channel membership for both users...";
             Call (ConversationsMembers "C1"); Sleep 1;
             Call (ConversationsMembers "C2"); Sleep 1;
             Call (ConversationsMembers "C3"); Sleep 1]))
  ∧ members_requests (scan_events ["C1"; "C2"; "C3"]) = 3%nat
  ∧ sleeps (scan_events ["C1"; "C2"; "C3"]) = [1%Z; 1%Z; 1%Z].
Proof.
  destruct (scan_collects_the_channels_of_each_user (L := unit) 1 (Some "U1") (Some "U2")
              (answering [Returns ["U1"; "U2"]; Returns ["U1"]; Returns []])
              (answering []) ["C1"; "C2"; "C3"] [["U1"; "U2"]; ["U1"]; []] tt [])
    as (Hrun & Hreq & Hsl & _).
  - repeat (eapply scanned_cons; [reflexivity|]). apply scanned_nil.
  - lia.
  - split; [exact Hrun|]. split; [exact Hreq|exact Hsl].
Defined.

(** No reply for the second channel: the failure escapes the scan. *)
Lemma lost_connection_escapes_scan :
  get_users_channel_ids 1 (Some "U1") (Some "U2") (["C1"] ++ "C2" :: ["C3"])
    (tt, Build_World (answering [Returns ["U1"]]) [])
  = (Raised (OtherError "connection lost"),
     (tt, Build_World (answering [])
            [Print "Fetching channel membership for both users...";
             Call (ConversationsMembers "C1"); Sleep 1;
             Call (ConversationsMembers "C2")])).
Proof.
  apply (transport_failure_of_scan_escapes (L := unit) 1 (Some "U1") (Some "U2")
           (answering [Returns ["U1"]]) (answering []) (answering [])
           ["C1"] [["U1"]] "C2" ["C3"] (OtherError "connection lost") tt []).
  - eapply scanned_cons; [reflexivity|]. apply scanned_nil.
  - reflexivity.
  - by intros e.
  - lia.
Defined.

(** A [Retry-After] header that is no number. *)
Lemma retry_after_soon_ends_the_scan :
  get_users_channel_ids 5 (Some "U1") (Some "U2") (["C1"] ++ "C2" :: ["C3"])
    (tt, Build_World (answering [Returns ["U1"];
                                 Raises (SlackApiError (rate_limited "soon"));
                                 Returns ["U2"]]) [])
  = (Raised ValueError,
     (tt, Build_World (answering [Returns ["U2"]])
            [Print "Fetching channel membership for both users...";
             Call (ConversationsMembers "C1"); Sleep 1;
             Call (ConversationsMembers "C2")])).
Proof.
  apply (unreadable_retry_after_ends_the_scan (L := unit) 5 (Some "U1") (Some "U2")
           (answering [Returns ["U1"]; Raises (SlackApiError (rate_limited "soon"));
                       Returns ["U2"]])
           (answering [Raises (SlackApiError (rate_limited "soon")); Returns ["U2"]])
           (answering [Returns ["U2"]])
           ["C1"] [["U1"]] "C2" ["C3"] (rate_limited "soon") "soon" tt []).
  - eapply scanned_cons; [reflexivity|]. apply scanned_nil.
  - reflexivity.
  - reflexivity.
  - reflexivity.
  - unfold ascii_only. cbn. repeat constructor; lia.
  - reflexivity.
  - lia.
Defined.

(** A negative [Retry-After] header. *)
Lemma retry_after_minus_five_ends_the_scan :
  get_users_channel_ids 5 (Some "U1") (Some "U2") ([] ++ "C1" :: ["C2"])
    (tt, Build_World (answering [Raises (SlackApiError (rate_limited "-5"));
                                 Returns ["U2"]]) [])
  = (Raised ValueError,
     (tt, Build_World (answering [Returns ["U2"]])
            [Print "Fetching channel membership for both users...";
             Call (ConversationsMembers "C1");
             Print "Rate-limited. Retrying after -5 seconds..."])).
Proof.
  apply (negative_retry_after_ends_the_scan (L := unit) 5 (Some "U1") (Some "U2")
           (answering [Raises (SlackApiError (rate_limited "-5")); Returns ["U2"]])
           (answering [Raises (SlackApiError (rate_limited "-5")); Returns ["U2"]])
           (answering [Returns ["U2"]])
           [] [] "C1" ["C2"] (rate_limited "-5") "-5" (-5)%Z tt []).
  - apply scanned_nil.
  - reflexivity.
  - reflexivity.
  - reflexivity.
  - reflexivity.
  - unfold max_sleep. lia.
  - lia.
Defined.


(** An id of the difference without a name in the mapping. *)
Lemma unknown_id_in_report :
  report_exclusive (Some "Ann") [("C1", "general")] {["C1"; "C9"]}
                   (tt, Build_World (serving []) [])
  = (Raised KeyError,
     (tt, Build_World (serving []) ([] ++ [Print (NL ++ "Channels only in Ann:")]))).
Proof.
  apply (report_block_with_unknown_id_raises_KeyError (L := unit)
           (Some "Ann") [("C1", "general")] {["C1"; "C9"]} "C9" tt
           (Build_World (serving []) [])).
  - set_solver.
  - unfold dict_keys. cbn. rewrite list_elem_of_singleton. discriminate.
Defined.

(** Ann is in all four channels, Bob in the second and the fourth. *)
Lemma ann_and_bob_compared :
  compare_user_channels 2 "ann@example.com" "bob@example.com"
    (tt, Build_World
           (ann_and_bob (Returns <$> four_channels)
                        [Returns ["U1"]; Returns ["U1"; "U2"]; Returns ["U1"];
                         Returns ["U2"; "U1"]]) [])
  = (Ok tt,
     (tt, Build_World (serving [])
       [Print ("Comparing channels for ann@example.com and bob@example.com..." ++ NL);
        Print "Looking up user ID for email: ann@example.com";
        Call (UsersLookupByEmail "ann@example.com");
        Print "User ID for ann@example.com: U1";
        Print "Looking up user ID for email: bob@example.com";
        Call (UsersLookupByEmail "bob@example.com");
        Print "User ID for bob@example.com: U2";
        Print "Fetching all non-archived channel IDs (including private channels)...";
        Call (ConversationsList "public_channel,private_channel" 100 None);
        Call (ConversationsList "public_channel,private_channel" 100 (Some "page-2"));
        Print "Total channels found: 4";
        Print "Public channels: 3";
        Print "Private channels: 1";
        Print "Fetching channel membership for both users...";
        Call (ConversationsMembers "C1"); Sleep 1;
        Call (ConversationsMembers "C2"); Sleep 1;
        Call (ConversationsMembers "C3"); Sleep 1;
        Call (ConversationsMembers "C4"); Sleep 1;
        Print "Ann is part of 4 channels.";
        Print "Bob is part of 2 channels.";
        Print (NL ++ "Comparing channel memberships...");
        Print (NL ++ "Channels only in Ann:");
        Print "- Zeta";
        Print "- mid";
        Print (NL ++ "No channels are exclusive to Bob.")])).
Proof.
  rewrite (comparison_reports_the_two_differences 2 "ann@example.com" "bob@example.com"
             {| user_id := "U1"; real_name := "Ann" |}
             {| user_id := "U2"; real_name := "Bob" |}
             four_channels [["U1"]; ["U1"; "U2"]; ["U1"]; ["U2"; "U1"]]
             _
             {| lookup_replies := [Returns {| user_id := "U2"; real_name := "Bob" |}];
                list_replies := Returns <$> four_channels;
                members_replies := [Returns ["U1"]; Returns ["U1"; "U2"]; Returns ["U1"];
                                    Returns ["U2"; "U1"]] |}
             {| lookup_replies := [];
                list_replies := Returns <$> four_channels;
                members_replies := [Returns ["U1"]; Returns ["U1"; "U2"]; Returns ["U1"];
                                    Returns ["U2"; "U1"]] |}
             (answering [Returns ["U1"]; Returns ["U1"; "U2"]; Returns ["U1"];
                         Returns ["U2"; "U1"]])
             (serving []) []).
  - by vm_compute.
  - reflexivity.
  - reflexivity.
  - discriminate.
  - discriminate.
  - eapply listing_next; [reflexivity|reflexivity|]. by apply listing_last.
  - repeat (eapply scanned_cons; [reflexivity|]). apply scanned_nil.
  - cbn. lia.
Defined.

(** The listing fails at once: the report says that nothing differs. *)
Lemma failed_listing_reported_as_no_difference :
  compare_user_channels 1 "ann@example.com" "bob@example.com"
    (tt, Build_World
           (ann_and_bob [Raises (SlackApiError (api_error "missing_scope"))] []) [])
  = (Ok tt,
     (tt, Build_World (serving [])
       [Print ("Comparing channels for ann@example.com and bob@example.com..." ++ NL);
        Print "Looking up user ID for email: ann@example.com";
        Call (UsersLookupByEmail "ann@example.com");
        Print "User ID for ann@example.com: U1";
        Print "Looking up user ID for email: bob@example.com";
        Call (UsersLookupByEmail "bob@example.com");
        Print "User ID for bob@example.com: U2";
        Print "Fetching all non-archived channel IDs (including private channels)...";
        Call (ConversationsList "public_channel,private_channel" 100 None);
        Print "Error fetching channels: missing_scope";
        Print "Total channels found: 0";
        Print "Public channels: 0";
        Print "Private channels: 0";
        Print "Fetching channel membership for both users...";
        Print "Ann is part of 0 channels.";
        Print "Bob is part of 0 channels.";
        Print (NL ++ "Comparing channel memberships...");
        Print (NL ++ "No channels are exclusive to Ann.");
        Print (NL ++ "No channels are exclusive to Bob.")])).
Proof.
  apply (failed_enumeration_reports_no_difference 1 "ann@example.com" "bob@example.com"
           {| user_id := "U1"; real_name := "Ann" |}
           {| user_id := "U2"; real_name := "Bob" |}
           (api_error "missing_scope")
           (ann_and_bob [Raises (SlackApiError (api_error "missing_scope"))] [])
           {| lookup_replies := [Returns {| user_id := "U2"; real_name := "Bob" |}];
              list_replies := [Raises (SlackApiError (api_error "missing_scope"))];
              members_replies := [] |}
           {| lookup_replies := [];
              list_replies := [Raises (SlackApiError (api_error "missing_scope"))];
              members_replies := [] |}
           (serving []) []).
  - reflexivity.
  - reflexivity.
  - discriminate.
  - discriminate.
  - reflexivity.
  - lia.
Defined.
